(** * EcoVision climate visualizer: the dashboard and its analytics contract

    A shallow embedding of the React front end under [frontend/src]
    ([App.jsx], [api.js], [components/Filters.jsx],
    [components/TrendAnalysis.jsx], [components/SummaryTable.jsx]) and of the
    weighted-summary contract of the analytics engine.

    JavaScript values are an inductive type, property reads and rendering
    that can raise are in an error monad, React state is threaded
    explicitly, and a rendered component is a small tree of elements. *)

From Stdlib Require Import List String Ascii Bool Arith ZArith NArith QArith Qabs Qminmax Qround Lia Lqa.
From Stdlib Require Import DecimalString.
Import ListNotations.
Open Scope string_scope.
Set Warnings "-register-all".

(** ** JavaScript values *)

Module JS.

(** A Number: a finite double by its exact rational value, an infinity, or
    NaN. The sign of zero is not kept. *)
Inductive number :=
| Fin (q : Q)
| PosInf
| NegInf
| NaN.

(** What [JSON.parse] can produce, plus [undefined] for a missing property.
    An object is the list of its own properties in the order
    [Object.entries] yields them. Strings stand for their UTF-8 bytes. *)
Inductive value :=
| VUndefined
| VNull
| VBool (b : bool)
| VNum (x : number)
| VStr (s : string)
| VArr (xs : list value)
| VObj (fields : list (string * value)).

(** Thrown values. Every rejection of [fetch] and [response.json] and every
    error raised by the engine or by React is an Error object; only its
    message is read. *)
Record exn := Error { message : string }.

Definition TypeError (msg : string) : exn := Error msg.

Inductive res (A : Type) :=
| Ok (a : A)
| Throw (e : exn).
Arguments Ok {A} a.
Arguments Throw {A} e.

Definition bind {A B} (m : res A) (f : A -> res B) : res B :=
  match m with
  | Ok a => f a
  | Throw e => Throw e
  end.

Declare Scope res_scope.
Delimit Scope res_scope with res.
Notation "x <- m ;; k" := (bind m (fun x => k))
  (at level 61, m at next level, right associativity) : res_scope.
Open Scope res_scope.

Fixpoint mapM {A B} (f : A -> res B) (l : list A) : res (list B) :=
  match l with
  | [] => Ok []
  | a :: l' => b <- f a ;; bs <- mapM f l' ;; Ok (b :: bs)
  end.

(** [Array.prototype.map] with the (element, index) callback. *)
Fixpoint mapMi {A B} (f : A -> nat -> res B) (i : nat) (l : list A) : res (list B) :=
  match l with
  | [] => Ok []
  | a :: l' => b <- f a i ;; bs <- mapMi f (S i) l' ;; Ok (b :: bs)
  end.

Definition number_is_zero (x : number) : bool :=
  match x with
  | Fin q => Qeq_bool q 0
  | _ => false
  end.

(** ToBoolean *)
Definition truthy (v : value) : bool :=
  match v with
  | VUndefined | VNull => false
  | VBool b => b
  | VNum NaN => false
  | VNum x => negb (number_is_zero x)
  | VStr s => negb (s =? "")
  | VArr _ | VObj _ => true
  end.

Definition typeof (v : value) : string :=
  match v with
  | VUndefined => "undefined"
  | VNull => "object"
  | VBool _ => "boolean"
  | VNum _ => "number"
  | VStr _ => "string"
  | VArr _ | VObj _ => "object"
  end.

Definition isArray (v : value) : bool :=
  match v with
  | VArr _ => true
  | _ => false
  end.

Definition is_null (v : value) : bool :=
  match v with
  | VNull => true
  | _ => false
  end.

Definition is_undefined (v : value) : bool :=
  match v with
  | VUndefined => true
  | _ => false
  end.

Definition of_nat (n : nat) : value := VNum (Fin (inject_Z (Z.of_nat n))).

Definition index_key (n : nat) : string := NilZero.string_of_uint (Nat.to_uint n).

Fixpoint lookup (k : string) (fields : list (string * value)) : value :=
  match fields with
  | [] => VUndefined
  | (k', v) :: rest => if k =? k' then v else lookup k rest
  end.

(** The array index a property name denotes, when it is a canonical one. *)
Definition as_index (k : string) : option nat :=
  match NilZero.uint_of_string k with
  | Some u => let n := Nat.of_uint u in
              if index_key n =? k then Some n else None
  | None => None
  end.

Fixpoint chars (s : string) : list value :=
  match s with
  | EmptyString => []
  | String c s' => VStr (String c EmptyString) :: chars s'
  end.

(** [o.k]: reading a property of [undefined] or [null] raises a TypeError.
    Inherited properties are left out: none of the names the front end
    reads is defined on a built-in prototype. The length and the characters
    of a string are those of its bytes, which is exact for ASCII. *)
Definition get (o : value) (k : string) : res value :=
  match o with
  | VUndefined =>
      Throw (TypeError ("Cannot read properties of undefined (reading '" ++ k ++ "')"))
  | VNull =>
      Throw (TypeError ("Cannot read properties of null (reading '" ++ k ++ "')"))
  | VObj fields => Ok (lookup k fields)
  | VArr xs =>
      if k =? "length" then Ok (of_nat (List.length xs))
      else match as_index k with
           | Some n => Ok (nth n xs VUndefined)
           | None => Ok VUndefined
           end
  | VStr s =>
      if k =? "length" then Ok (of_nat (String.length s))
      else match as_index k with
           | Some n => Ok (nth n (chars s) VUndefined)
           | None => Ok VUndefined
           end
  | VBool _ | VNum _ => Ok VUndefined
  end.

Fixpoint indexed {A} (i : nat) (l : list A) : list (string * A) :=
  match l with
  | [] => []
  | a :: l' => (index_key i, a) :: indexed (S i) l'
  end.

(** [Object.entries] *)
Definition entries (o : value) : res (list (string * value)) :=
  match o with
  | VUndefined | VNull =>
      Throw (TypeError "Cannot convert undefined or null to object")
  | VObj fields => Ok fields
  | VArr xs => Ok (indexed 0 xs)
  | VStr s => Ok (indexed 0 (chars s))
  | VBool _ | VNum _ => Ok []
  end.

(** [Object.keys] *)
Definition keys (o : value) : res (list string) :=
  es <- entries o ;; Ok (map fst es).

(** The parts of the language runtime whose results depend on the binary
    representation of doubles or on the number grammar. *)
Class Runtime := {
  (** Number::toString *)
  NumberToString : number -> string;
  (** StringToNumber *)
  StringToNumber : string -> number;
  (** Number::multiply *)
  multiply : number -> number -> number;
  (** Number.prototype.toFixed *)
  toFixed : number -> nat -> string
}.

Section Conversions.
Context {rt : Runtime}.

(** Whether an object has an own property of this name. *)
Definition has_own (k : string) (fields : list (string * value)) : bool :=
  existsb (fun kv => k =? fst kv) fields.

(** ToString, as [String(v)], a template literal and the built-in functions
    that take a string apply it. An array joins its elements. A plain
    object prints as [[object Object]] through the inherited [toString];
    when it has an own [toString] property, which after [JSON.parse] is
    never a function, the conversion finds no method that answers a
    primitive and raises a TypeError. *)
Fixpoint ToString (v : value) : res string :=
  match v with
  | VUndefined => Ok "undefined"
  | VNull => Ok "null"
  | VBool true => Ok "true"
  | VBool false => Ok "false"
  | VNum x => Ok (NumberToString x)
  | VStr s => Ok s
  | VArr xs =>
      pieces <- (fix each (l : list value) : res (list string) :=
                   match l with
                   | [] => Ok []
                   | x :: l' =>
                       piece <- match x with
                                | VUndefined | VNull => Ok ""
                                | _ => ToString x
                                end ;;
                       rest <- each l' ;;
                       Ok (piece :: rest)
                   end) xs ;;
      Ok (String.concat "," pieces)
  | VObj fields =>
      if has_own "toString" fields then
        Throw (TypeError "Cannot convert object to primitive value")
      else Ok "[object Object]"
  end.

(** ToNumber, which is also [Number(v)] and the conversion of the operands
    of [*] and [>]. An array or an object is first converted to a
    primitive, which for the values [JSON.parse] produces is its string, and
    raises when that does. *)
Definition ToNumber (v : value) : res number :=
  match v with
  | VUndefined => Ok NaN
  | VNull => Ok (Fin 0)
  | VBool true => Ok (Fin 1)
  | VBool false => Ok (Fin 0)
  | VNum x => Ok x
  | VStr s => Ok (StringToNumber s)
  | VArr _ | VObj _ => s <- ToString v ;; Ok (StringToNumber s)
  end.

(** [x > y] on Numbers; false as soon as one side is NaN. *)
Definition number_gt (x y : number) : bool :=
  match x, y with
  | NaN, _ | _, NaN => false
  | PosInf, PosInf => false
  | PosInf, _ => true
  | _, PosInf => false
  | NegInf, _ => false
  | Fin _, NegInf => true
  | Fin a, Fin b => negb (Qle_bool a b)
  end.

(** [v > n] for a Number [n]: the left operand is converted by ToNumber. *)
Definition gt (v : value) (n : number) : res bool :=
  x <- ToNumber v ;; Ok (number_gt x n).

End Conversions.

(** [String.prototype.toLowerCase], on the ASCII letters. No other character
    lowers to one of the letters the front end compares with. *)
Definition lower_ascii (c : ascii) : ascii :=
  let n := nat_of_ascii c in
  if (65 <=? n)%nat && (n <=? 90)%nat then ascii_of_nat (n + 32) else c.

Fixpoint toLowerCase (s : string) : string :=
  match s with
  | EmptyString => EmptyString
  | String c s' => String (lower_ascii c) (toLowerCase s')
  end.

End JS.

(** ** The quality model (README, utils/constants.py) *)

(** The closed, ordered set of data-quality grades. *)
Inductive QualityGrade :=
| excellent
| good
| questionable
| poor.

Definition all_grades : list QualityGrade := [excellent; good; questionable; poor].

(** The grade as it is written in the database, the API and the filters. *)
Definition grade_name (g : QualityGrade) : string :=
  match g with
  | excellent => "excellent"
  | good => "good"
  | questionable => "questionable"
  | poor => "poor"
  end.

(** ** components/Filters.jsx *)

Module Filters.

Record select_option := { value : string; label : string }.

Definition QUALITY_OPTIONS : list select_option :=
  [ {| value := ""; label := "Any" |};
    {| value := "excellent"; label := "Excellent" |};
    {| value := "good"; label := "Good" |};
    {| value := "poor"; label := "Poor" |} ].

Definition ANALYSIS_TYPES : list select_option :=
  [ {| value := "raw"; label := "Climate Data" |};
    {| value := "weighted"; label := "Summary" |};
    {| value := "trends"; label := "Trends" |} ].

(** The filter state. Every field is a string: it starts as one and is
    only replaced by the value of a form control. *)
Record FilterSet := {
  locationId : string;
  startDate : string;
  endDate : string;
  metric : string;
  qualityThreshold : string;
  analysisType : string
}.

(** [handleClear]'s [cleared], also the initial state of [App]. *)
Definition cleared : FilterSet :=
  {| locationId := ""; startDate := ""; endDate := ""; metric := "";
     qualityThreshold := ""; analysisType := "raw" |}.

(** The values the quality-threshold select lets the user pick. *)
Definition quality_values : list string := map value QUALITY_OPTIONS.

(** The values the analysis-type select lets the user pick. *)
Definition analysis_values : list string := map value ANALYSIS_TYPES.

Definition offers (values : list string) (v : string) : bool :=
  existsb (String.eqb v) values.

End Filters.

(** ** api.js *)

Module Api.
Import JS.

Definition API_BASE_URL : string := "/api/v1".

Definition is_alnum (c : ascii) : bool :=
  let n := nat_of_ascii c in
  ((48 <=? n) && (n <=? 57) || (65 <=? n) && (n <=? 90) || (97 <=? n) && (n <=? 122))%nat.

Definition one_of (set : string) (c : ascii) : bool :=
  existsb (Ascii.eqb c) (list_ascii_of_string set).

(** The characters [encodeURIComponent] leaves as they are. *)
Definition unreserved (c : ascii) : bool := is_alnum c || one_of "-_.!~*'()" c.

Definition hex_digit (n : nat) : ascii :=
  nth n (list_ascii_of_string "0123456789ABCDEF") "0"%char.

Definition percent_encode (c : ascii) : string :=
  let n := nat_of_ascii c in
  String "%" (String (hex_digit (n / 16)) (String (hex_digit (n mod 16)) EmptyString)).

(** [encodeURIComponent] of a well-formed string: each byte of the UTF-8
    encoding that is not unreserved becomes a percent escape. *)
Fixpoint encodeURIComponent (s : string) : string :=
  match s with
  | EmptyString => EmptyString
  | String c s' =>
      (if unreserved c then String c EmptyString else percent_encode c)
        ++ encodeURIComponent s'
  end.

Section WithRuntime.
Context {rt : Runtime}.

(** The test of the [filter] callback:
    [v !== undefined && v !== null && v !== ""]. *)
Definition kept (kv : string * JS.value) : bool :=
  match snd kv with
  | VUndefined => false
  | VNull => false
  | VStr s => negb (s =? "")
  | _ => true
  end.

(** The [map] callback: the template
    [`${encodeURIComponent(k)}=${encodeURIComponent(v)}`]. *)
Definition pair_string (kv : string * JS.value) : res string :=
  v <- ToString (snd kv) ;;
  Ok (encodeURIComponent (fst kv) ++ "=" ++ encodeURIComponent v).

Definition buildQueryString (params : JS.value) : res string :=
  es <- entries (if is_undefined params then VObj [] else params) ;;
  pairs <- mapM pair_string (filter kept es) ;;
  Ok (String.concat "&" pairs).

(** What [fetch] resolves to, as far as this module reads it. *)
Record response := {
  ok : bool;
  text : res string;
  json : res JS.value
}.

(** The URL of a resource for the given filters:
    [`${API_BASE_URL}/resource${query ? `?${query}` : ""}`]. *)
Definition resource_url (resource : string) (filters : JS.value) : res string :=
  query <- buildQueryString filters ;;
  Ok (API_BASE_URL ++ resource ++ (if query =? "" then "" else "?" ++ query)).

(** The body shared by [getClimateData], [getClimateSummary] and
    [getClimateTrends]; the [catch] block logs the error and throws it
    again. *)
Definition get_resource (fetch : string -> res response) (resource : string)
    (filters : JS.value) : res JS.value :=
  url <- resource_url resource filters ;;
  res <- fetch url ;;
  if negb (ok res) then message <- text res ;; Throw (Error message)
  else json res.

Definition getClimateData (fetch : string -> res response) (filters : JS.value)
  : res JS.value := get_resource fetch "/climate" filters.

Definition getClimateSummary (fetch : string -> res response) (filters : JS.value)
  : res JS.value := get_resource fetch "/summary" filters.

Definition getClimateTrends (fetch : string -> res response) (filters : JS.value)
  : res JS.value := get_resource fetch "/trends" filters.

End WithRuntime.

End Api.

(** ** App.jsx *)

Module App.
Import JS.
Import Filters.

(** The state of the [App] component, one field per [useState]. *)
Record AppState := {
  locations : JS.value;
  metrics : JS.value;
  climateData : JS.value;
  trendData : JS.value;
  summaryData : JS.value;
  filters : FilterSet;
  loading : bool;
  error : JS.value
}.

Definition initial : AppState :=
  {| locations := VArr []; metrics := VArr []; climateData := VArr [];
     trendData := VNull; summaryData := VNull; filters := cleared;
     loading := false; error := VNull |}.

(** Code that updates the state and may raise: it returns its result and the
    state it left, also when it raises. *)
Definition M (A : Type) : Type := AppState -> res A * AppState.

Definition ret {A} (a : A) : M A := fun st => (Ok a, st).

Definition throw {A} (e : exn) : M A := fun st => (Throw e, st).

(** A call that does not touch the state (and an awaited promise). *)
Definition lift {A} (r : res A) : M A := fun st => (r, st).

Definition bindM {A B} (m : M A) (f : A -> M B) : M B :=
  fun st =>
    match m st with
    | (Ok a, st') => f a st'
    | (Throw e, st') => (Throw e, st')
    end.

Declare Scope app_scope.
Delimit Scope app_scope with app.
Notation "x <~ m ;; k" := (bindM m (fun x => k))
  (at level 61, m at next level, right associativity) : app_scope.
Notation "m ;;; k" := (bindM m (fun _ => k))
  (at level 61, right associativity) : app_scope.
Open Scope app_scope.

(** [try { body } catch (error) { handler } finally { final }] *)
Definition try_catch_finally {A} (body : M A) (handler : exn -> M A) (final : M unit)
  : M A :=
  fun st =>
    let '(r, st1) :=
      match body st with
      | (Ok a, st') => (Ok a, st')
      | (Throw e, st') => handler e st'
      end in
    match final st1 with
    | (Ok _, st2) => (r, st2)
    | (Throw e, st2) => (Throw e, st2)
    end.

Definition setClimateData (v : JS.value) : M unit :=
  fun st =>
    (Ok tt, {| locations := locations st; metrics := metrics st; climateData := v;
               trendData := trendData st; summaryData := summaryData st;
               filters := filters st; loading := loading st; error := error st |}).

Definition setTrendData (v : JS.value) : M unit :=
  fun st =>
    (Ok tt, {| locations := locations st; metrics := metrics st;
               climateData := climateData st; trendData := v;
               summaryData := summaryData st; filters := filters st;
               loading := loading st; error := error st |}).

Definition setSummaryData (v : JS.value) : M unit :=
  fun st =>
    (Ok tt, {| locations := locations st; metrics := metrics st;
               climateData := climateData st; trendData := trendData st;
               summaryData := v; filters := filters st; loading := loading st;
               error := error st |}).

Definition setFilters (f : FilterSet) : M unit :=
  fun st =>
    (Ok tt, {| locations := locations st; metrics := metrics st;
               climateData := climateData st; trendData := trendData st;
               summaryData := summaryData st; filters := f; loading := loading st;
               error := error st |}).

Definition setLoading (b : bool) : M unit :=
  fun st =>
    (Ok tt, {| locations := locations st; metrics := metrics st;
               climateData := climateData st; trendData := trendData st;
               summaryData := summaryData st; filters := filters st; loading := b;
               error := error st |}).

Definition setError (v : JS.value) : M unit :=
  fun st =>
    (Ok tt, {| locations := locations st; metrics := metrics st;
               climateData := climateData st; trendData := trendData st;
               summaryData := summaryData st; filters := filters st;
               loading := loading st; error := v |}).

(** What [fetch] resolves to; [json] is the outcome of [response.json()]. *)
Record response := {
  ok : bool;
  status : nat;
  statusText : string;
  json : res JS.value
}.

(** [...(field && { name: field })] on a string field. *)
Definition spread_if (name field : string) : list (string * string) :=
  if field =? "" then [] else [(name, field)].

(** The object literal handed to [URLSearchParams]. *)
Definition query_object (appliedFilters : FilterSet) : list (string * string) :=
  spread_if "location_id" (locationId appliedFilters)
  ++ spread_if "start_date" (startDate appliedFilters)
  ++ spread_if "end_date" (endDate appliedFilters)
  ++ spread_if "metric" (metric appliedFilters)
  ++ spread_if "quality_threshold" (qualityThreshold appliedFilters).

(** The application/x-www-form-urlencoded byte serializer. *)
Fixpoint form_encode (s : string) : string :=
  match s with
  | EmptyString => EmptyString
  | String c s' =>
      (if Api.is_alnum c || Api.one_of "*-._" c then String c EmptyString
       else if Ascii.eqb c " " then "+"
       else Api.percent_encode c)
        ++ form_encode s'
  end.

(** [URLSearchParams.prototype.toString] *)
Definition URLSearchParams (init : list (string * string)) : string :=
  String.concat "&" (map (fun kv => form_encode (fst kv) ++ "=" ++ form_encode (snd kv)) init).

(** The endpoint [fetchData] picks for the applied filters. *)
Definition endpoint (appliedFilters : FilterSet) : string :=
  if analysisType appliedFilters =? "trends" then "/api/v1/trends"
  else if analysisType appliedFilters =? "weighted" then "/api/v1/summary"
  else "/api/v1/climate".

(** The guard on empty or missing data:
    [!data || !data.data
     || (Array.isArray(data.data) && data.data.length === 0)
     || (typeof data.data === 'object' && Object.keys(data.data).length === 0)] *)
Definition no_data (data : JS.value) : res bool :=
  if negb (truthy data) then Ok true
  else
    d <- get data "data" ;;
    if negb (truthy d) then Ok true
    else if match d with VArr xs => Nat.eqb (List.length xs) 0 | _ => false end then Ok true
    else if typeof d =? "object" then ks <- keys d ;; Ok (Nat.eqb (List.length ks) 0)
    else Ok false.

Definition decimal (n : nat) : string := NilZero.string_of_uint (Nat.to_uint n).

Definition fetchData (fetch : string -> res response) (appliedFilters : FilterSet)
  : M unit :=
  setLoading true ;;;
  setError VNull ;;;
  try_catch_finally
    (let queryParams := URLSearchParams (query_object appliedFilters) in
     response <~ lift (fetch (endpoint appliedFilters ++ "?" ++ queryParams)) ;;
     if negb (ok response) then
       throw (Error ("API error: " ++ decimal (status response) ++ " "
                       ++ statusText response))
     else
       data <~ lift (json response) ;;
       empty <~ lift (no_data data) ;;
       if empty then
         setError (VStr "No data available for the selected filters.") ;;;
         setTrendData VNull ;;;
         setSummaryData VNull ;;;
         setClimateData (VArr []) ;;;
         setLoading false
       else
         payload <~ lift (get data "data") ;;
         if analysisType appliedFilters =? "trends" then
           setTrendData payload ;;;
           setSummaryData VNull ;;;
           setClimateData (VArr [])
         else if analysisType appliedFilters =? "weighted" then
           setSummaryData payload ;;;
           setTrendData VNull ;;;
           setClimateData (VArr [])
         else
           setClimateData payload ;;;
           setTrendData VNull ;;;
           setSummaryData VNull)
    (fun error =>
       setError (VStr (if message error =? "" then "Error fetching data."
                       else message error)) ;;;
       setTrendData VNull ;;;
       setSummaryData VNull ;;;
       setClimateData (VArr []))
    (setLoading false).

Definition handleApplyFilters (fetch : string -> res response) (newFilters : FilterSet)
  : M unit :=
  setFilters newFilters ;;;
  fetchData fetch newFilters.

(** The state a completed call leaves. *)
Definition after {A} (m : M A) (st : AppState) : AppState := snd (m st).

(** A result state holds data: it is not at its empty value. *)
Definition populated_climate (st : AppState) : bool :=
  match climateData st with
  | VArr [] => false
  | _ => true
  end.

Definition populated_trend (st : AppState) : bool := negb (is_null (trendData st)).

Definition populated_summary (st : AppState) : bool := negb (is_null (summaryData st)).

End App.

(** ** Rendered output *)

Module React.
Import JS.

(** One series of a chart: its label, colour and data points. *)
Record dataset := {
  ds_label : string;
  backgroundColor : string;
  ds_data : list number
}.

(** What a component returns: an element with its class and children, a
    text, nothing at all ([null], [false], [undefined]), a list of children,
    or the bar chart of react-chartjs-2 with its labels and series. *)
Inductive node :=
| Elt (tag className : string) (children : list node)
| Text (s : string)
| Nothing
| Fragment (children : list node)
| Bar (labels : list string) (datasets : list dataset).

Section WithRuntime.
Context {rt : Runtime}.

(** A JavaScript value in child position, [{v}]: booleans, [null] and
    [undefined] render nothing, an array renders its elements, and a plain
    object is refused by React. *)
Fixpoint child (v : JS.value) : res node :=
  match v with
  | VUndefined | VNull | VBool _ => Ok Nothing
  | VNum x => Ok (Text (NumberToString x))
  | VStr s => Ok (Text s)
  | VArr xs =>
      cs <- (fix each (l : list JS.value) : res (list node) :=
               match l with
               | [] => Ok []
               | x :: l' => c <- child x ;; cs <- each l' ;; Ok (c :: cs)
               end) xs ;;
      Ok (Fragment cs)
  | VObj _ => Throw (Error "Objects are not valid as a React child")
  end.

(** [{cond && element}] when [cond] is falsy: the value of [cond] itself is
    the child. *)
Definition falsy_child (cond : JS.value) : res node := child cond.

(** [x.map(f)]: only an array has a [map]. *)
Definition array_map {B} (x : JS.value) (f : JS.value -> nat -> res B) : res (list B) :=
  match x with
  | VArr xs => mapMi f 0 xs
  | VUndefined | VNull => _ <- get x "map" ;; Ok []
  | _ => Throw (TypeError "map is not a function")
  end.

(** [x.toFixed(d)]: only a Number has a [toFixed]. *)
Definition call_toFixed (x : JS.value) (d : nat) : res string :=
  match x with
  | VNum n => Ok (toFixed n d)
  | VUndefined | VNull => _ <- get x "toFixed" ;; Ok ""
  | _ => Throw (TypeError "toFixed is not a function")
  end.

End WithRuntime.

End React.

(** ** components/SummaryTable.jsx *)

Module SummaryTable.
Import JS.
Import React.

Section WithRuntime.
Context {rt : Runtime}.

(** Helper to round to 2 decimals. *)
Definition round2 (v : JS.value) : res string :=
  match v with
  | VNull | VUndefined => Ok "-"
  | _ => x <- ToNumber v ;; Ok (toFixed x 2)
  end.

Definition td (children : list node) : node := Elt "td" "px-4 py-2 border" children.

Definition th (title : string) : node := Elt "th" "px-4 py-2 border" [Text title].

Definition quality_class (q : string) : string :=
  "inline-block px-2 py-1 mr-1 rounded text-xs font-medium "
  ++ (if q =? "excellent" then "bg-green-100 text-green-700"
      else if q =? "good" then "bg-blue-100 text-blue-700"
      else if q =? "questionable" then "bg-yellow-100 text-yellow-700"
      else "bg-red-100 text-red-700").

(** One badge of the quality-distribution cell. *)
Definition quality_badge (qv : string * JS.value) : res node :=
  v <- ToNumber (snd qv) ;;
  Ok (Elt "span" (quality_class (fst qv))
        [Text (fst qv); Text ": "; Text (toFixed (multiply v (Fin 100)) 2); Text "%"]).

(** One row of the table body. *)
Definition row (entry : string * JS.value) (idx : nat) : res node :=
  let '(metric, stats) := entry in
  min <- (v <- get stats "min" ;; round2 v) ;;
  max <- (v <- get stats "max" ;; round2 v) ;;
  avg <- (v <- get stats "avg" ;; round2 v) ;;
  weighted_avg <- (v <- get stats "weighted_avg" ;; round2 v) ;;
  unit <- get stats "unit" ;;
  unit_cell <- child (match unit with VNull | VUndefined => VStr "-" | _ => unit end) ;;
  qd <- get stats "quality_distribution" ;;
  qd_cell <- (if truthy qd then
                es <- entries qd ;; bs <- mapM quality_badge es ;; Ok (Fragment bs)
              else Ok (Text "-")) ;;
  Ok (Elt "tr" (if Nat.even idx then "bg-gray-50" else "")
        [ Elt "td" "px-4 py-2 border font-semibold" [Text metric];
          td [Text min];
          td [Text max];
          td [Text avg];
          td [Text weighted_avg];
          td [unit_cell];
          td [qd_cell] ]).

(** One point of a chart series:
    [Number((stats.quality_distribution?.grade ?? 0).toFixed(2))]. *)
Definition chart_point (grade : string) (entry : string * JS.value) : res number :=
  qd <- get (snd entry) "quality_distribution" ;;
  share <- (match qd with
            | VNull | VUndefined => Ok VUndefined
            | _ => get qd grade
            end) ;;
  s <- call_toFixed (match share with
                     | VNull | VUndefined => VNum (Fin 0)
                     | _ => share
                     end) 2 ;;
  Ok (StringToNumber s).

Definition series (label color grade : string) (ms : list (string * JS.value))
  : res dataset :=
  points <- mapM (chart_point grade) ms ;;
  Ok {| ds_label := label; backgroundColor := color; ds_data := points |}.

Fixpoint filterM {A} (f : A -> res bool) (l : list A) : res (list A) :=
  match l with
  | [] => Ok []
  | a :: l' =>
      b <- f a ;; rest <- filterM f l' ;; Ok (if b then a :: rest else rest)
  end.

Definition SummaryTable (data : JS.value) (loading : bool) : res node :=
  if loading then
    Ok (Elt "div" "text-center py-8 text-lg" [Text "Loading summary..."])
  else if negb (truthy data) then
    Ok (Elt "div" "text-center py-8 text-gray-500" [Text "No summary data."])
  else
    ks <- keys data ;;
    if Nat.eqb (List.length ks) 0 then
      Ok (Elt "div" "text-center py-8 text-gray-500" [Text "No summary data."])
    else
      es <- entries data ;;
      metricsWithQuality <-
        filterM (fun e => qd <- get (snd e) "quality_distribution" ;; Ok (truthy qd)) es ;;
      rows <- mapMi row 0 es ;;
      chart <-
        (if Nat.ltb 0 (List.length metricsWithQuality) then
           s1 <- series "Excellent" "#22c55e" "excellent" metricsWithQuality ;;
           s2 <- series "Good" "#3b82f6" "good" metricsWithQuality ;;
           s3 <- series "Questionable" "#facc15" "questionable" metricsWithQuality ;;
           s4 <- series "Poor" "#ef4444" "poor" metricsWithQuality ;;
           Ok (Elt "div" "bg-white rounded shadow p-4 w-full"
                 [ Elt "h3" "text-lg font-semibold mb-4"
                     [Text "Quality Distribution by Metric"];
                   Bar (map fst metricsWithQuality) [s1; s2; s3; s4] ])
         else Ok Nothing) ;;
      Ok (Elt "div" "space-y-8 w-full col-span-2"
            [ Elt "div" "overflow-x-auto rounded shadow border bg-white w-full"
                [ Elt "table" "min-w-full text-sm"
                    [ Elt "thead" "bg-eco-primary text-white"
                        [ Elt "tr" ""
                            [ th "Metric"; th "Min"; th "Max"; th "Avg";
                              th "Weighted Avg"; th "Unit"; th "Quality Distribution" ] ];
                      Elt "tbody" "" rows ] ];
              chart ]).

End WithRuntime.

End SummaryTable.

(** ** components/TrendAnalysis.jsx *)

Module TrendAnalysis.
Import JS.
Import React.

Definition getTrendIcon (direction : JS.value) : JS.value :=
  if negb (truthy direction) || negb (typeof direction =? "string") then VNull
  else
    match direction with
    | VStr s =>
        let d := toLowerCase s in
        if d =? "increasing" then VStr "↗️"
        else if d =? "decreasing" then VStr "↘️"
        else if d =? "stable" then VStr "➡️"
        else VNull
    | _ => VNull
    end.

Section WithRuntime.
Context {rt : Runtime}.

Definition TrendStat (label : string) (value icon : JS.value) : res node :=
  i <- (if truthy icon then c <- child icon ;; Ok (Elt "span" "" [c])
        else falsy_child icon) ;;
  v <- child value ;;
  Ok (Elt "div" "flex justify-between items-center text-sm"
        [ Elt "span" "text-gray-600" [Text label; Text ":"];
          Elt "span" "font-medium flex items-center gap-1" [i; v] ]).

Definition NA : JS.value := VStr "N/A".

(** The value shown as trend direction. *)
Definition direction_value (direction : JS.value) : JS.value :=
  if truthy direction then direction else NA.

(** The value shown as rate of change. *)
Definition rate_value (rate unit : JS.value) : res JS.value :=
  if negb (is_null rate) && truthy unit then
    r <- ToNumber rate ;;
    u <- ToString unit ;;
    Ok (VStr (toFixed r 2 ++ " " ++ u ++ "/month"))
  else Ok NA.

(** The value shown as confidence. *)
Definition confidence_value (confidence : JS.value) : res JS.value :=
  if negb (is_null confidence) then
    c <- ToNumber confidence ;;
    Ok (VStr (toFixed (multiply c (Fin 100)) 1 ++ "%"))
  else Ok NA.

Definition metric_title (metric : string) : node :=
  Elt "h4" "font-medium text-gray-700 mb-2 capitalize" [Text metric].

(** The card of one metric in the trend overview. *)
Definition TrendCard (entry : string * JS.value) : res node :=
  let '(metric, analysis) := entry in
  trend <- get analysis "trend" ;;
  direction <- get trend "direction" ;;
  s1 <- TrendStat "Trend Direction" (direction_value direction) (getTrendIcon direction) ;;
  rate <- get trend "rate" ;;
  unit <- get trend "unit" ;;
  shown_rate <- rate_value rate unit ;;
  s2 <- TrendStat "Rate of Change" shown_rate VUndefined ;;
  confidence <- get trend "confidence" ;;
  shown_confidence <- confidence_value confidence ;;
  s3 <- TrendStat "Confidence" shown_confidence VUndefined ;;
  Ok (Elt "div" "p-4 border rounded-lg"
        [ metric_title metric; Elt "div" "space-y-2" [s1; s2; s3] ]).

Definition severe : string := "bg-red-100 text-red-800".

Definition mild : string := "bg-yellow-100 text-yellow-800".

(** The class of the deviation badge of one anomaly. *)
Definition severity_class (deviation : JS.value) : res string :=
  above <- gt deviation (Fin 3) ;;
  Ok ("px-2 py-1 rounded text-xs " ++ (if above then severe else mild)).

(** One line of the anomaly list. *)
Definition AnomalyRow (anomaly : JS.value) (index : nat) : res node :=
  date <- get anomaly "date" ;;
  d <- child date ;;
  value <- get anomaly "value" ;;
  v <- ToNumber value ;;
  deviation <- get anomaly "deviation" ;;
  badge <- severity_class deviation ;;
  dev <- ToNumber deviation ;;
  Ok (Elt "div" "flex items-center text-sm"
        [ Elt "span" "w-32" [d];
          Elt "span" "w-24" [Text (toFixed v 2)];
          Elt "span" badge [Text (toFixed dev 2); Text " σ"] ]).

(** The anomalies of one metric, when it has any. *)
Definition AnomalyBlock (entry : string * JS.value) : res node :=
  let '(metric, analysis) := entry in
  anomalies <- get analysis "anomalies" ;;
  len <- get anomalies "length" ;;
  some <- gt len (Fin 0) ;;
  if some then
    rows <- array_map anomalies AnomalyRow ;;
    Ok (Elt "div" "border-b pb-2"
          [ metric_title metric; Elt "div" "space-y-1" rows ])
  else Ok Nothing.

(** One season of a seasonal pattern. *)
Definition SeasonRow (entry : string * JS.value) : res node :=
  let '(season, data) := entry in
  avg <- get data "avg" ;;
  shown_avg <- (if negb (is_null avg) && negb (is_undefined avg)
                then a <- ToNumber avg ;; Ok (toFixed a 2)
                else Ok "N/A") ;;
  trend <- get data "trend" ;;
  t <- child (if truthy trend then trend else NA) ;;
  Ok (Elt "div" "flex justify-between text-sm"
        [ Elt "span" "capitalize" [Text season];
          Elt "span" "" [ Text shown_avg; Text " ("; t; Text ")" ] ]).

(** The seasonal pattern of one metric, when one was detected. *)
Definition SeasonBlock (entry : string * JS.value) : res node :=
  let '(metric, analysis) := entry in
  seasonality <- get analysis "seasonality" ;;
  detected <- get seasonality "detected" ;;
  if truthy detected then
    period <- get seasonality "period" ;;
    p <- child (if truthy period then period else NA) ;;
    confidence <- get seasonality "confidence" ;;
    shown_confidence <- (if negb (is_null confidence)
                         then c <- ToNumber confidence ;;
                              Ok (toFixed (multiply c (Fin 100)) 1 ++ "%")
                         else Ok "N/A") ;;
    pattern <- get seasonality "pattern" ;;
    seasons <- entries pattern ;;
    rows <- mapM SeasonRow seasons ;;
    Ok (Elt "div" "border-b pb-4"
          [ metric_title metric;
            Elt "div" "grid grid-cols-1 md:grid-cols-2 gap-4"
              [ Elt "div" ""
                  [ Elt "p" "text-sm text-gray-600" [Text "Period: "; p];
                    Elt "p" "text-sm text-gray-600"
                      [ Text "Confidence: "; Text shown_confidence ] ];
                Elt "div" "space-y-1" rows ] ])
  else falsy_child detected.

Definition section (title : string) (listClass : string) (children : list node) : node :=
  Elt "div" "bg-white p-4 rounded-lg shadow-md w-full"
    [ Elt "h3" "text-lg font-semibold mb-4" [Text title];
      Elt "div" listClass children ].

Definition TrendAnalysis (data : JS.value) (loading : bool) : res node :=
  if loading then
    Ok (Elt "div" "bg-white p-4 rounded-lg shadow-md animate-pulse col-span-2 w-full"
          [Elt "div" "h-64 bg-gray-200 rounded" []])
  else if negb (truthy data) then Ok Nothing
  else
    es <- entries data ;;
    cards <- mapM TrendCard es ;;
    anomalies <- mapM AnomalyBlock es ;;
    seasons <- mapM SeasonBlock es ;;
    Ok (Elt "div" "space-y-6 w-full col-span-2"
          [ section "Trend Analysis" "grid grid-cols-1 md:grid-cols-2 gap-4" cards;
            section "Detected Anomalies" "space-y-2" anomalies;
            section "Seasonal Patterns" "space-y-4" seasons ]).

End WithRuntime.

End TrendAnalysis.

(** ** The weighted summary of the analytics engine *)

Module Engine.

(** Modelled from the spec: the calendar day of an observation (section 3,
    Observation); the backend that defines it is not among the sources. *)
Record date := { year : Z; month : Z; day : Z }.

(** Modelled from the spec: an Observation of section 3, a timestamp, a real
    value and a quality grade; the backend that defines it is not among the
    sources. Reals are exact rationals. *)
Record Observation := {
  timestamp : date;
  value : Q;
  quality : QualityGrade
}.

(** Modelled from the spec: the weight table of the Quality Model (section
    4.1), [weight_of(grade)]; utils/constants.py is not among the sources,
    so the table is a parameter of the calculator. *)
Definition WeightTable : Type := QualityGrade -> Q.

(** Modelled from the spec: section 3 on QualityGrade, every weight is in
    (0, 1] and the weights strictly decrease from excellent to poor. *)
Definition valid_weights (weight_of : WeightTable) : Prop :=
  (forall g, 0 < weight_of g /\ weight_of g <= 1)
  /\ weight_of poor < weight_of questionable
  /\ weight_of questionable < weight_of good
  /\ weight_of good < weight_of excellent.

(** Modelled from the spec: the SummaryResult of section 3; its
    [quality_distribution] maps each grade to its fraction. *)
Record SummaryResult := {
  min : Q;
  max : Q;
  mean : Q;
  weighted_mean : Q;
  unit : string;
  quality_distribution : list (QualityGrade * Q)
}.

(** Modelled from the spec: what the Weighted Summary Calculator of section
    4.2 answers, a result or one of the signals of sections 4.2 and 7. *)
Inductive outcome :=
| Summary (r : SummaryResult)
| EmptyInput
| DivisionByZeroGuarded.

Definition grade_eqb (a b : QualityGrade) : bool :=
  match a, b with
  | excellent, excellent | good, good | questionable, questionable | poor, poor => true
  | _, _ => false
  end.

(** The sum of a sequence of reals. *)
Definition Qsum (l : list Q) : Q := fold_right Qplus 0 l.

(** Modelled from the spec: section 4.2, the total weight of a sequence of
    observations, the denominator of [weighted_mean] and of
    [quality_distribution]. *)
Definition total_weight (weight_of : WeightTable) (obs : list Observation) : Q :=
  Qsum (map (fun o => weight_of (quality o)) obs).

(** Modelled from the spec: section 4.2, the numerator of [weighted_mean],
    the sum of value times weight. *)
Definition weighted_total (weight_of : WeightTable) (obs : list Observation) : Q :=
  Qsum (map (fun o => value o * weight_of (quality o)) obs).

(** Modelled from the spec: section 4.2, the sum of the weights of the
    observations with grade [g]. *)
Definition grade_weight (weight_of : WeightTable) (g : QualityGrade)
    (obs : list Observation) : Q :=
  total_weight weight_of (filter (fun o => grade_eqb (quality o) g) obs).

(** Modelled from the spec: the Weighted Summary Calculator of section 4.2
    (the summary endpoint of backend/app.py, which is not among the
    sources). An empty sequence is signalled, never summarised; the
    division is guarded; the distribution is by weight mass. *)
Definition summarize (weight_of : WeightTable) (unit : string) (obs : list Observation)
  : outcome :=
  match obs with
  | [] => EmptyInput
  | o :: rest =>
      let total := total_weight weight_of obs in
      if Qeq_bool total 0 then DivisionByZeroGuarded
      else
        Summary
          {| min := fold_left Qmin (map value rest) (value o);
             max := fold_left Qmax (map value rest) (value o);
             mean := Qsum (map value obs) / inject_Z (Z.of_nat (List.length obs));
             weighted_mean := weighted_total weight_of obs / total;
             unit := unit;
             quality_distribution :=
               map (fun g => (g, grade_weight weight_of g obs / total)) all_grades |}
  end.

(** The sum of the fractions of a distribution. *)
Definition distribution_sum (d : list (QualityGrade * Q)) : Q := Qsum (map snd d).

(** Modelled from the spec: the weights of the scenario of section 8,
    excellent 1.0, good 0.8 and poor 0.3; utils/constants.py is not among
    the sources. The weight of questionable, which the scenario leaves
    open, is [q]. *)
Definition scenario_weights (q : Q) : WeightTable :=
  fun g =>
    match g with
    | excellent => 1
    | good => 8 # 10
    | questionable => q
    | poor => 3 # 10
    end.

(** Modelled from the spec: the three observations of the scenario of
    section 8. *)
Definition scenario : list Observation :=
  [ {| timestamp := {| year := 2023; month := 1; day := 1 |}; value := 10; quality := good |};
    {| timestamp := {| year := 2023; month := 2; day := 1 |}; value := 12;
       quality := excellent |};
    {| timestamp := {| year := 2023; month := 3; day := 1 |}; value := 14; quality := poor |} ].

End Engine.

(** ** Vocabulary of the statements *)

Module Payload.
Import JS.

(** The data payload of a response body, [data.data]; [undefined] when the
    body has none. *)
Definition payload (data : JS.value) : JS.value :=
  match get data "data" with
  | Ok d => d
  | Throw _ => VUndefined
  end.


(** The URL [fetchData] requests for the applied filters. *)
Definition request_url (appliedFilters : Filters.FilterSet) : string :=
  App.endpoint appliedFilters ++ "?" ++ App.URLSearchParams (App.query_object appliedFilters).

(** A run that is handed [fetch] requests the URL [u]: what it returns and
    the state it leaves depend on [fetch] through its answer at [u] alone,
    and when the request to [u] fails the run shows the failure's message,
    as the [catch] block of [fetchData] does. *)
Definition requests (run : (string -> res App.response) -> App.M unit) (u : string)
  : Prop :=
  (forall fetch1 fetch2 st, fetch1 u = fetch2 u -> run fetch1 st = run fetch2 st)
  /\ (forall fetch st e,
        fetch u = Throw e ->
        App.error (App.after (run fetch) st)
        = VStr (if message e =? "" then "Error fetching data." else message e)).

(** How many of the three result states hold data. *)
Definition populated_count (st : App.AppState) : nat :=
  (if App.populated_climate st then 1 else 0)
  + (if App.populated_trend st then 1 else 0)
  + (if App.populated_summary st then 1 else 0).


(** The state after the results are set to [c], [t] and [s], the message to
    [err] and [loading] to false. *)
Definition settle (err c t s : JS.value) (st : App.AppState) : App.AppState :=
  {| App.locations := App.locations st; App.metrics := App.metrics st;
     App.climateData := c; App.trendData := t; App.summaryData := s;
     App.filters := App.filters st; App.loading := false; App.error := err |}.

(** The state the [catch] block leaves for the error [e]. *)
Definition failure (e : exn) (st : App.AppState) : App.AppState :=
  settle (VStr (if message e =? "" then "Error fetching data." else message e))
    (VArr []) VNull VNull st.

(** The state a call of [fetchData] leaves, by what [fetch] answered. *)
Definition result_state (f : Filters.FilterSet) (fetched : res App.response)
    (st : App.AppState) : App.AppState :=
  match fetched with
  | Throw e => failure e st
  | Ok r =>
      if App.ok r then
        match App.json r with
        | Throw e => failure e st
        | Ok data =>
            match App.no_data data with
            | Throw e => failure e st
            | Ok true =>
                settle (VStr "No data available for the selected filters.")
                  (VArr []) VNull VNull st
            | Ok false =>
                match get data "data" with
                | Throw e => failure e st
                | Ok d =>
                    if Filters.analysisType f =? "trends" then
                      settle VNull (VArr []) d VNull st
                    else if Filters.analysisType f =? "weighted" then
                      settle VNull (VArr []) VNull d st
                    else settle VNull d VNull VNull st
                end
            end
        end
      else
        failure (Error ("API error: " ++ App.decimal (App.status r) ++ " "
                          ++ App.statusText r)) st
  end.

End Payload.

(** ** Reading a query string back *)

Module Query.
Import JS.

(** The pieces of [s] between the occurrences of [sep]. *)
Fixpoint split (sep : ascii) (s : string) : list string :=
  match s with
  | EmptyString => [EmptyString]
  | String c s' =>
      if Ascii.eqb c sep then EmptyString :: split sep s'
      else match split sep s' with
           | piece :: pieces => String c piece :: pieces
           | [] => [String c EmptyString]
           end
  end.

(** [s] cut at its first [sep]: what is before it and what is after. *)
Fixpoint cut (sep : ascii) (s : string) : string * string :=
  match s with
  | EmptyString => (EmptyString, EmptyString)
  | String c s' =>
      if Ascii.eqb c sep then (EmptyString, s')
      else let '(before, rest) := cut sep s' in (String c before, rest)
  end.

(** The name and value pairs a query string carries: its pieces between
    ampersands, each cut at its first equals sign. *)
Definition parameters (query : string) : list (string * string) :=
  if query =? "" then [] else map (cut "=") (split "&" query).

Definition occurs (c : ascii) (s : string) : bool :=
  existsb (Ascii.eqb c) (list_ascii_of_string s).







End Query.

(** ** A runtime on exact rationals *)

Module Exact.
Import JS.

Definition decimal_Z (z : Z) : string := NilZero.string_of_int (Z.to_int z).

Fixpoint zeros (n : nat) : string :=
  match n with
  | O => EmptyString
  | S n' => String "0" (zeros n')
  end.

(** [x.toFixed(d)] for a finite [x] below 10^21: the integer nearest to
    [|x| * 10^d], the larger one on a tie, printed with [d] decimals. *)
Definition fixed (q : Q) (d : nat) : string :=
  let a := Qabs q in
  let n := Qfloor (a * inject_Z (10 ^ Z.of_nat d) + (1 # 2)) in
  let digits := decimal_Z n in
  let padded := zeros (S d - String.length digits) ++ digits in
  let k := (String.length padded - d)%nat in
  (if Qle_bool 0 q then "" else "-")
    ++ String.substring 0 k padded
    ++ (if Nat.eqb d 0 then "" else "." ++ String.substring k d padded).

Definition is_integer (q : Q) : bool := Qeq_bool q (inject_Z (Qfloor q)).

(** Number::toString, exact on the integers; another finite number is
    printed with six decimals. *)
Definition number_string (x : number) : string :=
  match x with
  | Fin q => if is_integer q then decimal_Z (Qfloor q) else fixed q 6
  | PosInf => "Infinity"
  | NegInf => "-Infinity"
  | NaN => "NaN"
  end.

(** The number a string of decimal digits denotes, zero for no digit. *)
Definition digits_number (s : string) : option Z :=
  match NilEmpty.uint_of_string s with
  | Some u => Some (Z.of_uint u)
  | None => None
  end.

(** StringToNumber on the empty string and on plain decimal literals, an
    optional minus sign, digits, and an optional point with digits; every
    other string is read as NaN. *)
Definition string_number (s : string) : number :=
  if s =? "" then Fin 0
  else
    let '(negative, body) :=
      match s with
      | String "-" rest => (true, rest)
      | _ => (false, s)
      end in
    let '(whole, fraction) := Query.cut "." body in
    if (whole =? "") && (fraction =? "") then NaN
    else
      match digits_number whole, digits_number fraction with
      | Some w, Some f =>
          let q := inject_Z w
                   + inject_Z f / inject_Z (10 ^ Z.of_nat (String.length fraction)) in
          Fin (if negative then - q else q)
      | _, _ => NaN
      end.

(** Number::multiply without the rounding to a double. *)
Definition times (x y : number) : number :=
  match x, y with
  | Fin a, Fin b => Fin (a * b)
  | NaN, _ | _, NaN => NaN
  | Fin a, inf | inf, Fin a =>
      if Qeq_bool a 0 then NaN
      else if Qle_bool 0 a then inf
      else match inf with PosInf => NegInf | _ => PosInf end
  | PosInf, PosInf | NegInf, NegInf => PosInf
  | _, _ => NegInf
  end.

(** A runtime that computes on the exact rational values, to run the
    components on sample payloads. It agrees with an engine where no
    rounding to a double takes place. *)
#[export] Instance runtime : Runtime := {|
  NumberToString := number_string;
  StringToNumber := string_number;
  multiply := times;
  toFixed := fun x d => match x with
                        | Fin q => fixed q d
                        | _ => number_string x
                        end
|}.

End Exact.

(** ** The shape of the trend payload and of what is rendered *)

Module Shape.
Import JS React TrendAnalysis.

Definition string_or_null (v : JS.value) : bool :=
  match v with
  | VNull | VStr _ => true
  | _ => false
  end.

Definition number_or_null (v : JS.value) : bool :=
  match v with
  | VNull | VNum _ => true
  | _ => false
  end.

(** [{direction, rate, unit, confidence}] *)
Definition trend_shape (t : JS.value) : bool :=
  match t with
  | VObj f =>
      string_or_null (lookup "direction" f) && number_or_null (lookup "rate" f)
      && string_or_null (lookup "unit" f) && number_or_null (lookup "confidence" f)
  | _ => false
  end.

(** [{date, value, deviation}] *)
Definition anomaly_shape (a : JS.value) : bool :=
  match a with
  | VObj f =>
      match lookup "date" f, lookup "value" f, lookup "deviation" f with
      | VStr _, VNum _, VNum _ => true
      | _, _, _ => false
      end
  | _ => false
  end.

(** [{avg, trend}] *)
Definition season_shape (s : JS.value) : bool :=
  match s with
  | VObj f => number_or_null (lookup "avg" f) && string_or_null (lookup "trend" f)
  | _ => false
  end.

(** [{detected, period, confidence, pattern}]; when [detected] is false the
    other fields are free: empty, null or absent. *)
Definition seasonality_shape (s : JS.value) : bool :=
  match s with
  | VObj f =>
      match lookup "detected" f with
      | VBool true =>
          string_or_null (lookup "period" f) && number_or_null (lookup "confidence" f)
          && match lookup "pattern" f with
             | VObj seasons => forallb (fun e => season_shape (snd e)) seasons
             | _ => false
             end
      | VBool false => true
      | _ => false
      end
  | _ => false
  end.

(** The trend-mode output for one metric (section 6 of the specification):
    [{trend, anomalies, seasonality}]. *)
Definition analysis_shape (a : JS.value) : bool :=
  match a with
  | VObj f =>
      trend_shape (lookup "trend" f)
      && match lookup "anomalies" f with
         | VArr xs => forallb anomaly_shape xs
         | _ => false
         end
      && seasonality_shape (lookup "seasonality" f)
  | _ => false
  end.

(** [a.b.c], [undefined] when a step is missing. *)
Definition field2 (a : JS.value) (b c : string) : JS.value :=
  match get a b with
  | Ok x => match get x c with
            | Ok v => v
            | Throw _ => VUndefined
            end
  | Throw _ => VUndefined
  end.

Definition field (a : JS.value) (b : string) : JS.value :=
  match get a b with
  | Ok x => x
  | Throw _ => VUndefined
  end.

(** A [TrendStat] line with the given label and content. *)
Definition stat (label : string) (content : list node) : node :=
  Elt "div" "flex justify-between items-center text-sm"
    [ Elt "span" "text-gray-600" [Text label; Text ":"];
      Elt "span" "font-medium flex items-center gap-1" content ].

(** A [TrendStat] line that shows N/A and no icon. *)
Definition not_available (label : string) : node := stat label [Nothing; Text "N/A"].

(** The card of a metric with its three lines. *)
Definition card (metric : string) (s1 s2 s3 : node) : node :=
  Elt "div" "p-4 border rounded-lg"
    [ metric_title metric; Elt "div" "space-y-2" [s1; s2; s3] ].

(** What [TrendAnalysis] returns for a payload, given its three lists. *)
Definition layout (cards anomalies seasons : list node) : node :=
  Elt "div" "space-y-6 w-full col-span-2"
    [ section "Trend Analysis" "grid grid-cols-1 md:grid-cols-2 gap-4" cards;
      section "Detected Anomalies" "space-y-2" anomalies;
      section "Seasonal Patterns" "space-y-4" seasons ].

(** The class of the deviation badge of a rendered anomaly line. *)
Definition badge_class (row : node) : option string :=
  match row with
  | Elt _ _ [_; _; Elt _ c _] => Some c
  | _ => None
  end.

(** The anomaly lines of a rendered block of anomalies. *)
Definition anomaly_rows (block : node) : list node :=
  match block with
  | Elt _ _ [_; Elt _ _ rows] => rows
  | _ => []
  end.

Definition anomalies_of (a : JS.value) : list JS.value :=
  match field a "anomalies" with
  | VArr xs => xs
  | _ => []
  end.

(** The block of the seasonal pattern of a metric. *)
Definition season_block (metric : string) (period : node) (confidence : string)
    (rows : list node) : node :=
  Elt "div" "border-b pb-4"
    [ metric_title metric;
      Elt "div" "grid grid-cols-1 md:grid-cols-2 gap-4"
        [ Elt "div" ""
            [ Elt "p" "text-sm text-gray-600" [Text "Period: "; period];
              Elt "p" "text-sm text-gray-600" [Text "Confidence: "; Text confidence] ];
          Elt "div" "space-y-1" rows ] ].

(** The block of the anomalies of a metric. *)
Definition anomaly_block (metric : string) (rows : list node) : node :=
  Elt "div" "border-b pb-2" [ metric_title metric; Elt "div" "space-y-1" rows ].

Definition seasons_of (a : JS.value) : list (string * JS.value) :=
  match field2 a "seasonality" "pattern" with
  | VObj seasons => seasons
  | _ => []
  end.

(** What a rendered anomaly line shows for its anomaly: the red badge when
    the deviation is above 3, the yellow one otherwise. *)
Definition row_shows (a : JS.value) (row : node) : Prop :=
  forall x, field a "deviation" = VNum (Fin x) ->
    (3 < x -> badge_class row = Some "px-2 py-1 rounded text-xs bg-red-100 text-red-800")
    /\ (x <= 3 ->
        badge_class row = Some "px-2 py-1 rounded text-xs bg-yellow-100 text-yellow-800").

(** What the anomaly part shows for a metric: nothing without anomalies,
    else a block with one line per anomaly, in order. *)
Definition anomalies_show (e : string * JS.value) (b : node) : Prop :=
  (anomalies_of (snd e) = [] -> b = Nothing)
  /\ (anomalies_of (snd e) <> [] ->
      exists rows, b = anomaly_block (fst e) rows
                   /\ Forall2 row_shows (anomalies_of (snd e)) rows).

(** What the seasonal part shows for a metric: nothing when no seasonality
    was detected, else a block with one line per season. *)
Definition seasons_show (e : string * JS.value) (b : node) : Prop :=
  (field2 (snd e) "seasonality" "detected" = VBool false -> b = Nothing)
  /\ (field2 (snd e) "seasonality" "detected" = VBool true ->
      exists period confidence rows,
        b = season_block (fst e) period confidence rows
        /\ List.length rows = List.length (seasons_of (snd e))).

(** What a card shows for the trend of an analysis. *)
Definition card_shows (e : string * JS.value) (c : node) : Prop :=
  exists s1 s2 s3,
    c = card (fst e) s1 s2 s3
    /\ (field2 (snd e) "trend" "direction" = VNull -> s1 = not_available "Trend Direction")
    /\ (field2 (snd e) "trend" "rate" = VNull -> s2 = not_available "Rate of Change")
    /\ (field2 (snd e) "trend" "confidence" = VNull -> s3 = not_available "Confidence").

End Shape.

(** ** Sample inputs *)

Module Sample.
Import JS.

(** The filters of a weighted summary for location 1. *)
Definition summary_filters : Filters.FilterSet :=
  {| Filters.locationId := "1"; Filters.startDate := ""; Filters.endDate := "";
     Filters.metric := ""; Filters.qualityThreshold := "";
     Filters.analysisType := "weighted" |}.


(** A trend payload with one metric: too few points for a trend, two
    anomalies, no seasonality. *)
Definition trend_entries : list (string * JS.value) :=
  [ ("temperature",
     VObj [ ("trend", VObj [ ("direction", VNull); ("rate", VNull);
                             ("unit", VStr "celsius"); ("confidence", VNull) ]);
            ("anomalies",
             VArr [ VObj [ ("date", VStr "2023-07-14"); ("value", VNum (Fin (412 # 10)));
                           ("deviation", VNum (Fin (35 # 10))) ];
                    VObj [ ("date", VStr "2023-12-02"); ("value", VNum (Fin (-(3 # 1))));
                           ("deviation", VNum (Fin (24 # 10))) ] ]);
            ("seasonality", VObj [ ("detected", VBool false); ("period", VNull);
                                   ("confidence", VNull); ("pattern", VObj []) ]) ]) ].

End Sample.

(** ** Decoding a query string *)

Module Decode.

(** The value of a hexadecimal digit. *)
Definition hex_value (c : ascii) : option nat :=
  let n := nat_of_ascii c in
  if (48 <=? n)%nat && (n <=? 57)%nat then Some (n - 48)%nat
  else if (65 <=? n)%nat && (n <=? 70)%nat then Some (n - 55)%nat
  else if (97 <=? n)%nat && (n <=? 102)%nat then Some (n - 87)%nat
  else None.

(** Percent decoding of a byte string, as a server does it: an escape
    becomes its byte, and with [plus_is_space] a plus sign a space. A
    truncated or ill-formed escape is refused. *)
Fixpoint percent_decode (plus_is_space : bool) (s : string) : option string :=
  match s with
  | EmptyString => Some EmptyString
  | String c rest =>
      if Ascii.eqb c "%" then
        match rest with
        | String a (String b rest') =>
            match hex_value a, hex_value b, percent_decode plus_is_space rest' with
            | Some h, Some l, Some r => Some (String (ascii_of_nat (16 * h + l)) r)
            | _, _, _ => None
            end
        | _ => None
        end
      else
        match percent_decode plus_is_space rest with
        | Some r => Some (String (if plus_is_space && Ascii.eqb c "+" then " "%char else c) r)
        | None => None
        end
  end.


(** The application/x-www-form-urlencoded decoder, on bytes. *)
Definition form_decode : string -> option string := percent_decode true.

(** The decoded names and values of the parameters of a query string. *)
Fixpoint decode_pairs (decode : string -> option string) (l : list (string * string))
  : option (list (string * string)) :=
  match l with
  | [] => Some []
  | (k, v) :: l' =>
      match decode k, decode v, decode_pairs decode l' with
      | Some k', Some v', Some r => Some ((k', v') :: r)
      | _, _, _ => None
      end
  end.

(** The filters [fetchData] has to send: the five filter fields under their
    parameter names, without the empty ones. *)
Definition active_filters (f : Filters.FilterSet) : list (string * string) :=
  filter (fun kv => negb (snd kv =? ""))
    [ ("location_id", Filters.locationId f);
      ("start_date", Filters.startDate f);
      ("end_date", Filters.endDate f);
      ("metric", Filters.metric f);
      ("quality_threshold", Filters.qualityThreshold f) ].

(** A payload that counts as data: truthy, and not an empty array or
    object. *)
Definition substantial (d : JS.value) : bool :=
  match d with
  | JS.VArr [] | JS.VObj [] => false
  | _ => JS.truthy d
  end.

(** A value whose properties cannot be read. *)
Definition unreadable (v : JS.value) : Prop := v = JS.VUndefined \/ v = JS.VNull.

End Decode.

(** ** What [App] shows *)

Module Dashboard.
Import JS.

(** The component [App] puts in its grid, with the data and the loading
    flag it hands to it: [TrendAnalysis], [SummaryTable], or the two
    [ChartContainer]s. *)
Inductive panel :=
| TrendPanel (data : JS.value) (loading : bool)
| SummaryPanel (data : JS.value) (loading : bool)
| ChartPanels (data : JS.value) (loading : bool).

(** The choice of the grid's content by [filters.analysisType]. *)
Definition panel_of (st : App.AppState) : panel :=
  if Filters.analysisType (App.filters st) =? "trends" then
    TrendPanel (App.trendData st) (App.loading st)
  else if Filters.analysisType (App.filters st) =? "weighted" then
    SummaryPanel (App.summaryData st) (App.loading st)
  else ChartPanels (App.climateData st) (App.loading st).

(** The panel for an analysis type, showing [d]. *)
Definition panel_for (analysisType : string) (d : JS.value) : panel :=
  if analysisType =? "trends" then TrendPanel d false
  else if analysisType =? "weighted" then SummaryPanel d false
  else ChartPanels d false.

(** [{error && <div ...>{error}</div>}]: whether the error banner shows. *)
Definition banner_shown (st : App.AppState) : bool := truthy (App.error st).

(** What [QualityIndicator] is handed: always [climateData]. *)
Definition quality_indicator_data (st : App.AppState) : JS.value := App.climateData st.

End Dashboard.

(** ** The Filters component (components/Filters.jsx) *)

Module FiltersForm.
Import JS.
Import Filters.

(** [getLocations] and [getMetrics] of api.js: one request, an Error with
    the response text when the response is not ok, else its JSON. *)
Definition get_list (fetch : string -> res Api.response) (path : string) : res JS.value :=
  res <- fetch (Api.API_BASE_URL ++ path) ;;
  if negb (Api.ok res) then message <- Api.text res ;; Throw (Error message)
  else Api.json res.

Definition getLocations (fetch : string -> res Api.response) : res JS.value :=
  get_list fetch "/locations".

Definition getMetrics (fetch : string -> res Api.response) : res JS.value :=
  get_list fetch "/metrics".

(** [Promise.all] of two promises; which rejection wins is not observed by
    the caller, which discards the error. *)
Definition Promise_all {A B} (a : res A) (b : res B) : res (A * B) :=
  match a, b with
  | Ok x, Ok y => Ok (x, y)
  | Throw e, _ => Throw e
  | _, Throw e => Throw e
  end.

(** The state of the component, one field per [useState]. *)
Record State := {
  localFilters : FilterSet;
  locations : JS.value;
  metrics : JS.value;
  loading : bool
}.

(** [x || fallback] on strings *)
Definition or_string (x fallback : string) : string :=
  if x =? "" then fallback else x.

(** The local copy of the parent's filters, as the initial state and the
    synchronising effect build it. *)
Definition sync (filters : FilterSet) : FilterSet :=
  {| locationId := or_string (locationId filters) "";
     startDate := or_string (startDate filters) "";
     endDate := or_string (endDate filters) "";
     metric := or_string (metric filters) "";
     qualityThreshold := or_string (qualityThreshold filters) "";
     analysisType := or_string (analysisType filters) "raw" |}.

Definition initial (filters : FilterSet) : State :=
  {| localFilters := sync filters; locations := VArr []; metrics := VArr [];
     loading := true |}.

Definition setLocalFilters (f : FilterSet) (st : State) : State :=
  {| localFilters := f; locations := locations st; metrics := metrics st;
     loading := loading st |}.

Definition setLocations (v : JS.value) (st : State) : State :=
  {| localFilters := localFilters st; locations := v; metrics := metrics st;
     loading := loading st |}.

Definition setMetrics (v : JS.value) (st : State) : State :=
  {| localFilters := localFilters st; locations := locations st; metrics := v;
     loading := loading st |}.

Definition setLoading (b : bool) (st : State) : State :=
  {| localFilters := localFilters st; locations := locations st; metrics := metrics st;
     loading := b |}.

(** [x || []] *)
Definition or_empty (x : JS.value) : JS.value := if truthy x then x else VArr [].

(** The body of the [try] block after the two responses arrived: its
    outcome, and the state it had reached when it raised. *)
Definition store_lists (locRes metRes : JS.value) (st : State) : res unit * State :=
  match get locRes "data" with
  | Throw e => (Throw e, st)
  | Ok l =>
      let st := setLocations (or_empty l) st in
      match get metRes "data" with
      | Throw e => (Throw e, st)
      | Ok m => (Ok tt, setMetrics (or_empty m) st)
      end
  end.

(** [fetchDropdowns], the effect run when the component mounts. *)
Definition fetchDropdowns (fetch : string -> res Api.response) (st : State) : State :=
  let st := setLoading true st in
  let '(outcome, st) :=
    match Promise_all (getLocations fetch) (getMetrics fetch) with
    | Ok (locRes, metRes) => store_lists locRes metRes st
    | Throw e => (Throw e, st)
    end in
  let st :=
    match outcome with
    | Ok _ => st
    | Throw _ => setMetrics (VArr []) (setLocations (VArr []) st)
    end in
  setLoading false st.

(** The fields [handleChange] is called with. *)
Inductive field :=
| locationId_field
| metric_field
| startDate_field
| endDate_field
| qualityThreshold_field
| analysisType_field.

(** [{ ...localFilters, [field]: value }] *)
Definition with_field (f : FilterSet) (fd : field) (v : string) : FilterSet :=
  {| locationId := match fd with locationId_field => v | _ => locationId f end;
     startDate := match fd with startDate_field => v | _ => startDate f end;
     endDate := match fd with endDate_field => v | _ => endDate f end;
     metric := match fd with metric_field => v | _ => metric f end;
     qualityThreshold := match fd with qualityThreshold_field => v
                                  | _ => qualityThreshold f end;
     analysisType := match fd with analysisType_field => v | _ => analysisType f end |}.

(** [localFilters[field]] *)
Definition field_value (f : FilterSet) (fd : field) : string :=
  match fd with
  | locationId_field => locationId f
  | metric_field => metric f
  | startDate_field => startDate f
  | endDate_field => endDate f
  | qualityThreshold_field => qualityThreshold f
  | analysisType_field => analysisType f
  end.

Definition field_eqb (a b : field) : bool :=
  match a, b with
  | locationId_field, locationId_field | metric_field, metric_field
  | startDate_field, startDate_field | endDate_field, endDate_field
  | qualityThreshold_field, qualityThreshold_field
  | analysisType_field, analysisType_field => true
  | _, _ => false
  end.

Definition handleChange (fd : field) (v : string) (st : State) : State :=
  setLocalFilters (with_field (localFilters st) fd v) st.

(** [handleApply]: the call made on the parent, when it gave a callback. *)
Definition handleApply (onApplyFilters : option (FilterSet -> App.M unit)) (st : State)
  : App.M unit :=
  match onApplyFilters with
  | Some apply => apply (localFilters st)
  | None => App.ret tt
  end.

(** [handleClear]: the new local state and the call made on the parent. *)
Definition handleClear (onApplyFilters : option (FilterSet -> App.M unit)) (st : State)
  : State * App.M unit :=
  (setLocalFilters cleared st,
   match onApplyFilters with
   | Some apply => apply cleared
   | None => App.ret tt
   end).

End FiltersForm.

(** ** The shape of the summary payload and of the rendered table *)

Module SummaryShape.
Import JS React.

(** A statistic of a metric: a number, null when there is no reading, or
    absent. *)
Definition statistic (v : JS.value) : bool :=
  match v with
  | VNull | VUndefined | VNum _ => true
  | _ => false
  end.

(** The statistics of one metric (section 6 of the specification):
    [{min, max, avg, weighted_avg, unit, quality_distribution}], with four
    statistics that are numbers, null or absent, a unit that is a string or
    null and a distribution that is absent, null or an object of numbers. *)
Definition stats_shape (s : JS.value) : bool :=
  match s with
  | VObj f =>
      statistic (lookup "min" f) && statistic (lookup "max" f)
      && statistic (lookup "avg" f) && statistic (lookup "weighted_avg" f)
      && Shape.string_or_null (lookup "unit" f)
      && match lookup "quality_distribution" f with
         | VNull | VUndefined => true
         | VObj d => forallb (fun e => match snd e with VNum _ => true | _ => false end) d
         | _ => false
         end
  | _ => false
  end.

(** The metrics the chart plots: those with a distribution. *)
Definition has_distribution (e : string * JS.value) : bool :=
  truthy (Shape.field (snd e) "quality_distribution").

(** What [SummaryTable] returns for data: the table with its rows, then the
    chart block or nothing. *)
Definition table (rows : list node) (chart : node) : node :=
  Elt "div" "space-y-8 w-full col-span-2"
    [ Elt "div" "overflow-x-auto rounded shadow border bg-white w-full"
        [ Elt "table" "min-w-full text-sm"
            [ Elt "thead" "bg-eco-primary text-white"
                [ Elt "tr" ""
                    [ SummaryTable.th "Metric"; SummaryTable.th "Min"; SummaryTable.th "Max";
                      SummaryTable.th "Avg"; SummaryTable.th "Weighted Avg";
                      SummaryTable.th "Unit"; SummaryTable.th "Quality Distribution" ] ];
              Elt "tbody" "" rows ] ];
      chart ].

(** The chart block for the given metrics and series. *)
Definition chart_block (labels : list string) (datasets : list dataset) : node :=
  Elt "div" "bg-white rounded shadow p-4 w-full"
    [ Elt "h3" "text-lg font-semibold mb-4" [Text "Quality Distribution by Metric"];
      Bar labels datasets ].

(** The metric a rendered row is about: the text of its first cell. *)
Definition row_metric (row : node) : option string :=
  match row with
  | Elt _ _ (Elt _ _ [Text metric] :: _) => Some metric
  | _ => None
  end.

(** The labels of the four series of the chart, in order. *)
Definition series_labels : list string := ["Excellent"; "Good"; "Questionable"; "Poor"].

End SummaryShape.

(** ** More sample inputs *)

Module MoreSamples.
Import JS.

(** An ok response with two observations. *)
Definition climate_response : App.response :=
  {| App.ok := true; App.status := 200; App.statusText := "OK";
     App.json :=
       Ok (VObj [ ("data",
                   VArr [ VObj [ ("date", VStr "2023-01-01"); ("value", VNum (Fin 10));
                                 ("quality", VStr "good") ];
                          VObj [ ("date", VStr "2023-02-01"); ("value", VNum (Fin 12));
                                 ("quality", VStr "excellent") ] ]) ]) |}.

(** A trend payload whose second metric has no seasonality object. *)
Definition incomplete_trends : list (string * JS.value) :=
  Sample.trend_entries
  ++ [ ("humidity",
        VObj [ ("trend", VObj [ ("direction", VStr "stable"); ("rate", VNum (Fin 0));
                                ("unit", VStr "%"); ("confidence", VNum (Fin 1)) ]);
               ("anomalies", VArr []) ]) ].

(** The summary of two metrics, the second without a distribution. *)
Definition summary_entries : list (string * JS.value) :=
  [ ("temperature",
     VObj [ ("min", VNum (Fin 10)); ("max", VNum (Fin 14)); ("avg", VNum (Fin 12));
            ("weighted_avg", VNum (Fin (242 # 21))); ("unit", VStr "celsius");
            ("quality_distribution",
             VObj [ ("excellent", VNum (Fin (10 # 21))); ("good", VNum (Fin (8 # 21)));
                    ("poor", VNum (Fin (3 # 21))) ]) ]);
    ("humidity",
     VObj [ ("min", VNull); ("max", VNull); ("avg", VNull); ("weighted_avg", VNull);
            ("unit", VNull) ]) ].


(** A summary with a metric whose statistics are null. *)
Definition broken_summary : list (string * JS.value) :=
  summary_entries ++ [ ("pressure", VNull) ].

End MoreSamples.

(** * Properties *)

(** ** Filters *)

Section FilterProperties.
Import Filters.

(** C1: the quality-threshold select offers "Any", excellent, good and poor,
    and no entry for the grade questionable: the options do not cover the
    closed set of four grades. *)
Theorem quality_options_lack_questionable :
  offers quality_values (grade_name questionable) = false
  /\ quality_values = [""; grade_name excellent; grade_name good; grade_name poor]
  /\ (forall g, g <> questionable -> offers quality_values (grade_name g) = true).
Proof.
  split; [reflexivity | split; [reflexivity |]].
  intros g Hg. destruct g; try reflexivity. now elim Hg.
Qed.

End FilterProperties.

(** ** fetchData *)

Section FetchProperties.
Import JS Filters App Payload.

Ltac run_state :=
  cbv beta iota delta [setLoading setError setTrendData setSummaryData setClimateData
                       setFilters settle failure locations metrics climateData trendData
                       summaryData filters loading error fst snd negb message].

(** The monadic [fetchData] always completes, in the state [result_state]
    describes. *)
Lemma fetchData_unfold (fetch : string -> res response) (f : FilterSet) (st : AppState) :
  fetchData fetch f st = (Ok tt, result_state f (fetch (request_url f)) st).
Proof.
  unfold fetchData, try_catch_finally, bindM, lift, throw, request_url, result_state.
  destruct (fetch _) as [r | e]; [| run_state; reflexivity].
  destruct (ok r); [| run_state; reflexivity].
  destruct (json r) as [data | e]; [| run_state; reflexivity].
  destruct (no_data data) as [[|] | e]; try (run_state; reflexivity).
  destruct (get data "data") as [d | e]; [| run_state; reflexivity].
  destruct (analysisType f =? "trends"); [run_state; reflexivity |].
  destruct (analysisType f =? "weighted"); run_state; reflexivity.
Qed.

(** The one URL [fetchData] requests. *)
Lemma fetchData_requests (f : FilterSet) (u : string) :
  requests (fun fetch => fetchData fetch f) u <-> u = request_url f.
Proof.
  split.
  - intros [_ Hshown].
    destruct (string_dec u (request_url f)) as [Heq | Hne]; [exact Heq | exfalso].
    pose (answer := fun x : string =>
                      if x =? u then Throw (A := response) (Error "a")
                      else Throw (Error "b")).
    assert (Hu : answer u = Throw (Error "a")).
    { unfold answer. now rewrite String.eqb_refl. }
    specialize (Hshown answer initial (Error "a") Hu).
    unfold after in Hshown. rewrite fetchData_unfold in Hshown. cbn [snd] in Hshown.
    assert (Hother : answer (request_url f) = Throw (Error "b")).
    { unfold answer. destruct (String.eqb_spec (request_url f) u) as [H | _];
        [now elim Hne | reflexivity]. }
    rewrite Hother in Hshown. discriminate Hshown.
  - intros ->. split.
    + intros fetch1 fetch2 st H. rewrite !fetchData_unfold. now rewrite H.
    + intros fetch st e H. unfold after. rewrite fetchData_unfold. cbn [snd].
      rewrite H. reflexivity.
Qed.

(** C8: [fetchData] requests exactly one URL, at an endpoint that the
    analysis type alone selects: the trends endpoint for "trends", the
    summary endpoint for "weighted" and the climate endpoint for every other
    value, "raw" included, each followed by "?" and the query of the
    filters. What the call does depends on [fetch] through its answer at
    that URL only, and a failure of that request is what the call shows.
    "raw", "weighted" and "trends" are exactly the analysis types the filter
    form offers. *)
Theorem endpoint_by_analysis_type (f : FilterSet) :
  let query := URLSearchParams (query_object f) in
  let run := fun fetch => fetchData fetch f in
  (analysisType f = "trends" ->
   forall u, requests run u <-> u = "/api/v1/trends" ++ "?" ++ query)
  /\ (analysisType f = "weighted" ->
      forall u, requests run u <-> u = "/api/v1/summary" ++ "?" ++ query)
  /\ (analysisType f <> "trends" -> analysisType f <> "weighted" ->
      forall u, requests run u <-> u = "/api/v1/climate" ++ "?" ++ query)
  /\ (analysisType f = "raw" ->
      forall u, requests run u <-> u = "/api/v1/climate" ++ "?" ++ query)
  /\ (forall u u', requests run u -> requests run u' -> u = u')
  /\ analysis_values = ["raw"; "weighted"; "trends"]
  /\ map (fun t => endpoint {| locationId := ""; startDate := ""; endDate := "";
                               metric := ""; qualityThreshold := "";
                               analysisType := t |}) analysis_values
     = ["/api/v1/climate"; "/api/v1/summary"; "/api/v1/trends"].
Proof.
  cbv zeta.
  assert (Hclimate : analysisType f <> "trends" -> analysisType f <> "weighted" ->
                     forall u, requests (fun fetch => fetchData fetch f) u
                               <-> u = "/api/v1/climate" ++ "?"
                                       ++ URLSearchParams (query_object f)).
  { intros Ht Hw u. rewrite fetchData_requests. unfold request_url, endpoint.
    apply String.eqb_neq in Ht, Hw. rewrite Ht, Hw. reflexivity. }
  split; [| split; [| split; [| split; [| split; [| split]]]]].
  - intros H u. rewrite fetchData_requests. unfold request_url, endpoint.
    rewrite H. reflexivity.
  - intros H u. rewrite fetchData_requests. unfold request_url, endpoint.
    rewrite H. reflexivity.
  - exact Hclimate.
  - intros H. apply Hclimate; rewrite H; discriminate.
  - intros u u' Hu Hu'. apply fetchData_requests in Hu, Hu'. congruence.
  - reflexivity.
  - reflexivity.
Qed.

Variable fetch : string -> res response.

Lemma failure_clears (e : exn) (st : AppState) :
  loading (failure e st) = false
  /\ (populated_count (failure e st) <= 1)%nat
  /\ summaryData (failure e st) = VNull
  /\ trendData (failure e st) = VNull
  /\ climateData (failure e st) = VArr [].
Proof. repeat split. cbv. lia. Qed.

(** C9: a call of [fetchData] always completes, and the state it leaves has
    [loading] false and at most one of the three result states populated,
    the one of the requested analysis type; the other two are at their empty
    values. This holds when the request fails, when the response is not ok
    or not JSON, when the payload is empty and when it is not. *)
Theorem fetchData_result_states (f : FilterSet) (st : AppState) :
  let st' := after (fetchData fetch f) st in
  fst (fetchData fetch f st) = Ok tt
  /\ loading st' = false
  /\ (populated_count st' <= 1)%nat
  /\ (analysisType f = "trends" ->
      summaryData st' = VNull /\ climateData st' = VArr [])
  /\ (analysisType f = "weighted" ->
      trendData st' = VNull /\ climateData st' = VArr [])
  /\ (analysisType f <> "trends" -> analysisType f <> "weighted" ->
      trendData st' = VNull /\ summaryData st' = VNull).
Proof.
  unfold after. rewrite fetchData_unfold. cbv zeta. cbn [fst snd].
  split; [reflexivity |]. unfold result_state.
  destruct (fetch _) as [r | e];
    [| now destruct (failure_clears e st) as (? & ? & ? & ? & ?)].
  destruct (ok r);
    [| now destruct (failure_clears
                       (Error ("API error: " ++ decimal (status r) ++ " "
                                 ++ statusText r)) st) as (? & ? & ? & ? & ?)].
  destruct (json r) as [data | e];
    [| now destruct (failure_clears e st) as (? & ? & ? & ? & ?)].
  destruct (no_data data) as [[|] | e];
    [| | now destruct (failure_clears e st) as (? & ? & ? & ? & ?)].
  - repeat split. cbv. lia.
  - destruct (get data "data") as [d | e];
      [| now destruct (failure_clears e st) as (? & ? & ? & ? & ?)].
    destruct (String.eqb_spec (analysisType f) "trends") as [Ht | Ht].
    + repeat split; try congruence. cbv. destruct d; lia.
    + destruct (String.eqb_spec (analysisType f) "weighted") as [Hw | Hw].
      * repeat split; try congruence. cbv. destruct d; lia.
      * repeat split; try congruence.
        unfold populated_count, populated_climate, populated_trend, populated_summary.
        cbn. destruct d as [| | | | | [|] |]; cbn; lia.
Qed.

(** Only [undefined] and [null] refuse a property read. *)
Lemma get_defined (o : JS.value) (k : string) :
  truthy o = true -> exists d, get o k = Ok d.
Proof.
  destruct o; cbn [truthy]; try discriminate; intros _; unfold get;
    try (eexists; reflexivity);
    destruct (k =? "length"); try (eexists; reflexivity);
    destruct (as_index k); eexists; reflexivity.
Qed.



End FetchProperties.

(** The sample filters of a weighted summary: the one request goes to the
    summary endpoint. *)
Lemma endpoint_by_analysis_type_witness :
  Payload.requests (fun fetch => App.fetchData fetch Sample.summary_filters)
    ("/api/v1/summary" ++ "?" ++ App.URLSearchParams (App.query_object Sample.summary_filters)).
Proof.
  apply (proj1 (proj2 (endpoint_by_analysis_type Sample.summary_filters)) eq_refl).
  reflexivity.
Defined.


(** ** buildQueryString *)

Section QueryProperties.
Import JS Api Query.

Lemma occurs_app c a b : occurs c (a ++ b) = occurs c a || occurs c b.
Proof.
  unfold occurs. induction a as [| x a IH]; [reflexivity |].
  cbn [append list_ascii_of_string existsb]. rewrite IH. now rewrite orb_assoc.
Qed.

Lemma hex_digit_clean n sep :
  In sep ["&"; "="]%char -> Ascii.eqb sep (hex_digit n) = false.
Proof.
  intros [<- | [<- | []]]; unfold hex_digit;
    do 16 (destruct n as [| n]; [reflexivity |]); cbn; now destruct n.
Qed.

Lemma percent_encode_clean c sep :
  In sep ["&"; "="]%char -> occurs sep (percent_encode c) = false.
Proof.
  intros Hsep. unfold percent_encode, occurs.
  cbn [list_ascii_of_string existsb].
  rewrite !(hex_digit_clean _ _ Hsep).
  now destruct Hsep as [<- | [<- | []]].
Qed.




Lemma cut_clean sep a b :
  occurs sep a = false -> cut sep (a ++ String sep b) = (a, b).
Proof.
  induction a as [| c a IH]; intros Ha.
  - cbn. now rewrite Ascii.eqb_refl.
  - unfold occurs in Ha. cbn [list_ascii_of_string existsb] in Ha.
    apply orb_false_elim in Ha as [Hc Ha].
    cbn [append cut]. rewrite Ascii.eqb_sym, Hc. now rewrite (IH Ha).
Qed.

Lemma split_clean sep a :
  occurs sep a = false -> split sep a = [a].
Proof.
  induction a as [| c a IH]; intros Ha; [reflexivity |].
  unfold occurs in Ha. cbn [list_ascii_of_string existsb] in Ha.
  apply orb_false_elim in Ha as [Hc Ha].
  cbn [split]. rewrite Ascii.eqb_sym, Hc. now rewrite (IH Ha).
Qed.

Lemma split_app sep a b :
  occurs sep a = false -> split sep (a ++ String sep b) = a :: split sep b.
Proof.
  induction a as [| c a IH]; intros Ha.
  - cbn. now rewrite Ascii.eqb_refl.
  - unfold occurs in Ha. cbn [list_ascii_of_string existsb] in Ha.
    apply orb_false_elim in Ha as [Hc Ha].
    cbn [append split]. rewrite Ascii.eqb_sym, Hc. now rewrite (IH Ha).
Qed.

Lemma split_concat sep (pieces : list string) :
  pieces <> [] ->
  Forall (fun p => occurs sep p = false) pieces ->
  split sep (String.concat (String sep EmptyString) pieces) = pieces.
Proof.
  induction pieces as [| p pieces IH]; [congruence |]. intros _ Hall.
  inversion Hall as [| ? ? Hp Hrest]; subst.
  destruct pieces as [| p' pieces].
  - cbn [String.concat]. now apply split_clean.
  - change (String.concat (String sep "") (p :: p' :: pieces))
      with (p ++ String sep "" ++ String.concat (String sep "") (p' :: pieces)).
    cbn [append]. rewrite (split_app _ _ _ Hp). f_equal. apply IH; [discriminate | assumption].
Qed.

Lemma append_empty (s : string) : s ++ "" = s.
Proof. induction s as [| c s IH]; [reflexivity | cbn; now rewrite IH]. Qed.

Lemma concat_cons_nonempty sep p (pieces : list string) :
  p <> "" -> String.concat sep (p :: pieces) <> "".
Proof.
  destruct p as [| c p]; [congruence |]. intros _.
  destruct pieces; cbn; discriminate.
Qed.

Context {rt : Runtime}.















End QueryProperties.

(** ** TrendAnalysis *)

Section TrendProperties.
Import JS React TrendAnalysis Shape.
Context {rt : Runtime}.

Lemma mapM_Forall2 {A B} (f : A -> res B) (P : A -> B -> Prop) (l : list A) :
  Forall (fun a => exists b, f a = Ok b /\ P a b) l ->
  exists bs, mapM f l = Ok bs /\ Forall2 P l bs.
Proof.
  induction 1 as [| a l [b [Hb HP]] _ [bs [Hbs HPs]]].
  - exists []. split; [reflexivity | constructor].
  - exists (b :: bs). cbn [mapM]. rewrite Hb. cbn [bind]. rewrite Hbs. cbn [bind].
    split; [reflexivity | now constructor].
Qed.

Lemma mapMi_Forall2 {A B} (f : A -> nat -> res B) (P : A -> B -> Prop) (l : list A) :
  Forall (fun a => forall i, exists b, f a i = Ok b /\ P a b) l ->
  forall i, exists bs, mapMi f i l = Ok bs /\ Forall2 P l bs.
Proof.
  induction 1 as [| a l Ha _ IH]; intros i.
  - exists []. split; [reflexivity | constructor].
  - destruct (Ha i) as [b [Hb HP]]. destruct (IH (S i)) as [bs [Hbs HPs]].
    exists (b :: bs). cbn [mapMi]. rewrite Hb. cbn [bind]. rewrite Hbs. cbn [bind].
    split; [reflexivity | now constructor].
Qed.

Lemma TrendStat_string label s icon :
  icon = VNull \/ icon = VUndefined \/ (exists e, icon = VStr e) ->
  exists content, TrendStat label (VStr s) icon = Ok (stat label content).
Proof.
  intros [-> | [-> | [e ->]]]; unfold TrendStat, falsy_child;
    try (eexists; reflexivity).
  destruct (truthy (VStr e)); eexists; reflexivity.
Qed.

Lemma getTrendIcon_cases direction :
  getTrendIcon direction = VNull \/ exists e, getTrendIcon direction = VStr e.
Proof.
  unfold getTrendIcon.
  destruct (negb (truthy direction) || negb (typeof direction =? "string")); [now left |].
  destruct direction; try (now left).
  destruct (toLowerCase s =? "increasing"); [right; eexists; reflexivity |].
  destruct (toLowerCase s =? "decreasing"); [right; eexists; reflexivity |].
  destruct (toLowerCase s =? "stable"); [right; eexists; reflexivity | now left].
Qed.

Lemma TrendCard_shape (e : string * JS.value) :
  analysis_shape (snd e) = true ->
  exists c, TrendCard e = Ok c /\ card_shows e c.
Proof.
  destruct e as [metric analysis]. cbn [snd]. unfold analysis_shape.
  destruct analysis as [| | | | | | f]; try discriminate.
  intros H. apply andb_prop in H as [H _]. apply andb_prop in H as [H _].
  unfold card_shows, field2, TrendCard. cbn [fst snd get bind].
  destruct (lookup "trend" f) as [| | | | | | t]; try discriminate.
  cbn [trend_shape] in H. cbn [get bind].
  set (direction := lookup "direction" t) in *.
  set (rate := lookup "rate" t) in *.
  set (unit := lookup "unit" t) in *.
  set (confidence := lookup "confidence" t) in *.
  apply andb_prop in H as [H Hconfidence]. apply andb_prop in H as [H Hunit].
  apply andb_prop in H as [Hdirection Hrate].
  assert (H1 : exists s1, TrendStat "Trend Direction" (direction_value direction)
                            (getTrendIcon direction) = Ok s1
                          /\ (direction = VNull -> s1 = not_available "Trend Direction")).
  { destruct direction; try discriminate.
    - eexists. split; [reflexivity | reflexivity].
    - unfold direction_value. destruct (truthy (VStr s)).
      + destruct (TrendStat_string "Trend Direction" s (getTrendIcon (VStr s))) as [c Hc].
        { destruct (getTrendIcon_cases (VStr s)) as [-> | [e ->]]; eauto. }
        eexists. split; [exact Hc | discriminate].
      + destruct (TrendStat_string "Trend Direction" "N/A" (getTrendIcon (VStr s))) as [c Hc].
        { destruct (getTrendIcon_cases (VStr s)) as [-> | [e ->]]; eauto. }
        eexists. split; [exact Hc | discriminate]. }
  assert (H2 : exists shown s2,
                 rate_value rate unit = Ok shown
                 /\ TrendStat "Rate of Change" shown VUndefined = Ok s2
                 /\ (rate = VNull -> s2 = not_available "Rate of Change")).
  { unfold rate_value. destruct rate; try discriminate.
    - eexists _, _. repeat split; reflexivity.
    - cbn [is_null negb andb ToNumber bind].
      destruct unit; try discriminate.
      + eexists _, _. split; [reflexivity |]. split; [reflexivity | discriminate].
      + destruct (truthy (VStr s)); cbn [ToString bind];
          eexists _, _; (split; [reflexivity |]); (split; [reflexivity | discriminate]). }
  assert (H3 : exists shown s3,
                 confidence_value confidence = Ok shown
                 /\ TrendStat "Confidence" shown VUndefined = Ok s3
                 /\ (confidence = VNull -> s3 = not_available "Confidence")).
  { unfold confidence_value. destruct confidence; try discriminate.
    - eexists _, _. repeat split; reflexivity.
    - eexists _, _. split; [reflexivity |]. split; [reflexivity | discriminate]. }
  destruct H1 as [s1 [E1 N1]], H2 as (v2 & s2 & V2 & E2 & N2),
    H3 as (v3 & s3 & V3 & E3 & N3).
  rewrite E1. cbn [bind]. rewrite V2. cbn [bind]. rewrite E2. cbn [bind].
  rewrite V3. cbn [bind]. rewrite E3. cbn [bind].
  eexists. split; [reflexivity |]. exists s1, s2, s3. auto.
Qed.

Lemma AnomalyRow_shape (a : JS.value) :
  anomaly_shape a = true ->
  forall i, exists row, AnomalyRow a i = Ok row /\ row_shows a row.
Proof.
  unfold anomaly_shape. destruct a as [| | | | | | f]; try discriminate.
  unfold AnomalyRow, row_shows, field. cbn [get bind].
  destruct (lookup "date" f) as [| | | | d | |]; try discriminate.
  destruct (lookup "value" f) as [| | | v | | |]; try discriminate.
  destruct (lookup "deviation" f) as [| | | dev | | |]; try discriminate.
  intros _ i. unfold severity_class, gt. cbn [child ToNumber bind].
  eexists. split; [reflexivity |].
  intros x Hx. injection Hx as ->. unfold badge_class, number_gt.
  split; intros H.
  - destruct (Qle_bool x 3) eqn:E; [| reflexivity].
    apply Qle_bool_iff in E. exfalso. apply (Qlt_not_le _ _ H E).
  - apply Qle_bool_iff in H. now rewrite H.
Qed.

Lemma length_positive (n : nat) :
  gt (of_nat n) (Fin 0) = Ok (negb (Nat.eqb n 0)).
Proof.
  unfold gt, of_nat, number_gt. cbn [ToNumber bind]. destruct n as [| n]; [reflexivity |].
  cbn [Nat.eqb negb]. destruct (Qle_bool _ 0) eqn:E; [| reflexivity].
  apply Qle_bool_iff in E. unfold Qle, inject_Z in E. cbn [Qnum Qden] in E. lia.
Qed.

Lemma AnomalyBlock_shape (e : string * JS.value) :
  analysis_shape (snd e) = true ->
  exists b, AnomalyBlock e = Ok b /\ anomalies_show e b.
Proof.
  destruct e as [metric analysis]. cbn [snd]. unfold analysis_shape.
  destruct analysis as [| | | | | | f]; try discriminate.
  intros H. apply andb_prop in H as [H _]. apply andb_prop in H as [_ H].
  unfold anomalies_show, anomalies_of, field, AnomalyBlock. cbn [fst snd get bind].
  destruct (lookup "anomalies" f) as [| | | | | xs |]; try discriminate.
  change (get (VArr xs) "length") with (Ok (of_nat (List.length xs))). cbn [bind].
  rewrite length_positive. cbn [bind].
  destruct xs as [| a xs].
  - exists Nothing. split; [reflexivity |]. split; [reflexivity | congruence].
  - cbn [List.length Nat.eqb negb array_map].
    destruct (mapMi_Forall2 AnomalyRow row_shows (a :: xs)) with (i := 0%nat)
      as [rows [Hrows Hshow]].
    { apply Forall_forall. intros a' Hin. apply AnomalyRow_shape.
      rewrite forallb_forall in H. now apply H. }
    rewrite Hrows. cbn [bind]. eexists. split; [reflexivity |].
    split; [discriminate |]. intros _. exists rows. split; [reflexivity | assumption].
Qed.

Lemma SeasonRow_shape (e : string * JS.value) :
  season_shape (snd e) = true -> exists row, SeasonRow e = Ok row.
Proof.
  destruct e as [season data]. cbn [snd]. unfold season_shape.
  destruct data as [| | | | | | f]; try discriminate.
  intros H. apply andb_prop in H as [Havg H]. unfold SeasonRow. cbn [get bind].
  destruct (lookup "avg" f) as [| | | a | | |]; try discriminate;
    cbn [is_null is_undefined negb andb ToNumber bind];
    (destruct (lookup "trend" f) as [| | | | t | |]; try discriminate;
     [eexists; reflexivity | destruct (truthy (VStr t)); eexists; reflexivity]).
Qed.

Lemma mapM_length {A B} (f : A -> res B) (P : A -> B -> Prop) (l : list A) (bs : list B) :
  Forall2 P l bs -> List.length bs = List.length l.
Proof. induction 1; cbn; congruence. Qed.

Lemma SeasonBlock_shape (e : string * JS.value) :
  analysis_shape (snd e) = true ->
  exists b, SeasonBlock e = Ok b /\ seasons_show e b.
Proof.
  destruct e as [metric analysis]. cbn [snd]. unfold analysis_shape.
  destruct analysis as [| | | | | | f]; try discriminate.
  intros H. apply andb_prop in H as [_ H].
  unfold seasons_show, seasons_of, field2, SeasonBlock. cbn [fst snd get bind].
  destruct (lookup "seasonality" f) as [| | | | | | s]; try discriminate.
  cbn [seasonality_shape] in H. cbn [get bind].
  destruct (lookup "detected" s) as [| | [|] | | | |]; try discriminate.
  - cbn [truthy].
    apply andb_prop in H as [H Hpattern]. apply andb_prop in H as [Hperiod Hconfidence].
    destruct (lookup "pattern" s) as [| | | | | | seasons]; try discriminate.
    cbn [entries bind].
    destruct (mapM_Forall2 SeasonRow (fun _ _ => True) seasons) as [rows [Hrows Hlen]].
    { apply Forall_forall. intros e He. rewrite forallb_forall in Hpattern.
      destruct (SeasonRow_shape e (Hpattern e He)) as [row Hrow]. eauto. }
    apply (mapM_length SeasonRow) in Hlen.
    assert (Hp : exists p, child (if truthy (lookup "period" s) then lookup "period" s else NA)
                           = Ok p).
    { destruct (lookup "period" s) as [| | | | p | |]; try discriminate.
      - eexists; reflexivity.
      - destruct (truthy (VStr p)); eexists; reflexivity. }
    destruct Hp as [p Hp]. rewrite Hp. cbn [bind].
    destruct (lookup "confidence" s) as [| | | c | | |]; try discriminate;
      cbn [is_null negb ToNumber bind]; rewrite Hrows; cbn [bind];
      (eexists; split; [reflexivity |]; split; [discriminate |]; intros _;
       eexists _, _, rows; split; [reflexivity | assumption]).
  - cbn [truthy]. exists Nothing. split; [reflexivity |].
    split; [reflexivity | discriminate].
Qed.

Lemma TrendAnalysis_shape (es : list (string * JS.value)) :
  Forall (fun e => analysis_shape (snd e) = true) es ->
  exists cards anomalies seasons,
    TrendAnalysis (VObj es) false = Ok (layout cards anomalies seasons)
    /\ Forall2 card_shows es cards
    /\ Forall2 anomalies_show es anomalies
    /\ Forall2 seasons_show es seasons.
Proof.
  intros Hshape.
  destruct (mapM_Forall2 TrendCard card_shows es) as [cards [Hc Pc]].
  { revert Hshape. apply Forall_impl. apply TrendCard_shape. }
  destruct (mapM_Forall2 AnomalyBlock anomalies_show es) as [anomalies [Ha Pa]].
  { revert Hshape. apply Forall_impl. apply AnomalyBlock_shape. }
  destruct (mapM_Forall2 SeasonBlock seasons_show es) as [seasons [Hs Ps]].
  { revert Hshape. apply Forall_impl. apply SeasonBlock_shape. }
  exists cards, anomalies, seasons.
  unfold TrendAnalysis. cbn [truthy negb entries bind].
  rewrite Hc. cbn [bind]. rewrite Ha. cbn [bind]. rewrite Hs. cbn [bind].
  repeat split; assumption.
Qed.

(** C5: for a payload of the trend shape, [TrendAnalysis] returns its layout
    with one card per metric, in the order of the payload, and the card of a
    metric shows "N/A" on the line of each of direction, rate and confidence
    that is null: no metric is left out and nothing is raised. *)
Theorem trend_cards_show_not_available (es : list (string * JS.value)) :
  Forall (fun e => analysis_shape (snd e) = true) es ->
  exists cards anomalies seasons,
    TrendAnalysis (VObj es) false = Ok (layout cards anomalies seasons)
    /\ List.length cards = List.length es
    /\ Forall2 card_shows es cards.
Proof.
  intros Hshape.
  destruct (TrendAnalysis_shape es Hshape) as (cards & anomalies & seasons & H & Pc & _).
  exists cards, anomalies, seasons. split; [exact H |]. split; [| exact Pc].
  clear H. induction Pc; cbn; [reflexivity |].
  inversion Hshape; subst. now rewrite IHPc.
Qed.

(** C6: for a payload of the trend shape, each anomaly of each metric gets
    one line, whose badge is the red one when the deviation it carries is
    above 3 and the yellow one otherwise; and two anomalies that carry the
    same deviation get the same badge, whatever their dates, values and
    positions. *)
Theorem anomaly_badge_by_deviation (es : list (string * JS.value)) :
  Forall (fun e => analysis_shape (snd e) = true) es ->
  (exists cards anomalies seasons,
     TrendAnalysis (VObj es) false = Ok (layout cards anomalies seasons)
     /\ Forall2 anomalies_show es anomalies)
  /\ (forall a a' i i' row row',
        field a "deviation" = field a' "deviation" ->
        AnomalyRow a i = Ok row -> AnomalyRow a' i' = Ok row' ->
        badge_class row = badge_class row').
Proof.
  intros Hshape. split.
  - destruct (TrendAnalysis_shape es Hshape) as (cards & anomalies & seasons & H & _ & Pa & _).
    exists cards, anomalies, seasons. split; assumption.
  - intros a a' i i' row row' Hdev. unfold AnomalyRow, field in *.
    destruct (get a "date") as [d |]; [| discriminate]. cbn [bind].
    destruct (child d); [| discriminate]. cbn [bind].
    destruct (get a "value") as [v |]; [| discriminate]. cbn [bind].
    destruct (ToNumber v); [| discriminate]. cbn [bind].
    destruct (get a "deviation") as [dev |]; [| discriminate]. cbn [bind].
    destruct (severity_class dev) as [badge |] eqn:Hbadge; [| discriminate]. cbn [bind].
    destruct (ToNumber dev); [| discriminate]. cbn [bind].
    destruct (get a' "date") as [d' |]; [| discriminate]. cbn [bind].
    destruct (child d'); [| discriminate]. cbn [bind].
    destruct (get a' "value") as [v' |]; [| discriminate]. cbn [bind].
    destruct (ToNumber v'); [| discriminate]. cbn [bind].
    destruct (get a' "deviation") as [dev' |]; [| discriminate]. cbn [bind].
    subst dev'. rewrite Hbadge. cbn [bind].
    destruct (ToNumber dev); [| discriminate]. cbn [bind].
    intros [= <-] [= <-]. reflexivity.
Qed.

(** C7: for a payload of the trend shape, a metric whose seasonality was not
    detected gets no seasonal block, and one whose seasonality was detected
    gets a block with its period, confidence and one line per season; when
    [detected] is false the block is absent whatever the period, confidence
    and pattern fields hold, also when they are missing. *)
Theorem no_seasonal_block_unless_detected (es : list (string * JS.value)) :
  Forall (fun e => analysis_shape (snd e) = true) es ->
  (exists cards anomalies seasons,
     TrendAnalysis (VObj es) false = Ok (layout cards anomalies seasons)
     /\ Forall2 seasons_show es seasons)
  /\ (forall metric f s,
        lookup "seasonality" f = VObj s -> lookup "detected" s = VBool false ->
        SeasonBlock (metric, VObj f) = Ok Nothing).
Proof.
  intros Hshape. split.
  - destruct (TrendAnalysis_shape es Hshape) as (cards & anomalies & seasons & H & _ & _ & Ps).
    exists cards, anomalies, seasons. split; assumption.
  - intros metric f s Hs Hd. unfold SeasonBlock. cbn [get bind].
    rewrite Hs. cbn [get bind]. rewrite Hd. reflexivity.
Qed.

End TrendProperties.

Lemma sample_trend_shape :
  Forall (fun e => Shape.analysis_shape (snd e) = true) Sample.trend_entries.
Proof. repeat constructor. Qed.

(** The sample payload: its one card shows N/A three times. *)
Lemma trend_cards_show_not_available_witness :
  exists cards anomalies seasons,
    TrendAnalysis.TrendAnalysis (rt := Exact.runtime) (JS.VObj Sample.trend_entries) false
    = JS.Ok (Shape.layout cards anomalies seasons)
    /\ List.length cards = List.length Sample.trend_entries
    /\ Forall2 Shape.card_shows Sample.trend_entries cards.
Proof.
  exact (@trend_cards_show_not_available Exact.runtime Sample.trend_entries
           sample_trend_shape).
Defined.

(** The sample payload: its two anomalies get their lines. *)
Lemma anomaly_badge_by_deviation_witness :
  exists cards anomalies seasons,
    TrendAnalysis.TrendAnalysis (rt := Exact.runtime) (JS.VObj Sample.trend_entries) false
    = JS.Ok (Shape.layout cards anomalies seasons)
    /\ Forall2 Shape.anomalies_show Sample.trend_entries anomalies.
Proof.
  exact (proj1 (@anomaly_badge_by_deviation Exact.runtime Sample.trend_entries
                  sample_trend_shape)).
Defined.

(** The sample payload: no seasonality was detected for its metric. *)
Lemma no_seasonal_block_unless_detected_witness :
  exists cards anomalies seasons,
    TrendAnalysis.TrendAnalysis (rt := Exact.runtime) (JS.VObj Sample.trend_entries) false
    = JS.Ok (Shape.layout cards anomalies seasons)
    /\ Forall2 Shape.seasons_show Sample.trend_entries seasons.
Proof.
  exact (proj1 (@no_seasonal_block_unless_detected Exact.runtime Sample.trend_entries
                  sample_trend_shape)).
Defined.

(** ** The weighted summary *)

Section SummaryProperties.
Import Engine.
Open Scope Q_scope.

Variable weight_of : WeightTable.
Hypothesis Hvalid : valid_weights weight_of.

Lemma total_weight_cons o obs :
  total_weight weight_of (o :: obs) = weight_of (quality o) + total_weight weight_of obs.
Proof. reflexivity. Qed.

Lemma total_weight_nonneg obs : 0 <= total_weight weight_of obs.
Proof.
  induction obs as [| o obs IH]; [apply Qle_refl |].
  rewrite total_weight_cons. destruct Hvalid as [Hw _]. destruct (Hw (quality o)). lra.
Qed.

Lemma total_weight_pos obs : obs <> [] -> 0 < total_weight weight_of obs.
Proof.
  destruct obs as [| o obs]; [congruence |]. intros _.
  rewrite total_weight_cons. destruct Hvalid as [Hw _]. destruct (Hw (quality o)).
  pose proof (total_weight_nonneg obs). lra.
Qed.

Lemma grade_weights_total obs :
  grade_weight weight_of excellent obs + grade_weight weight_of good obs
  + grade_weight weight_of questionable obs + grade_weight weight_of poor obs
  == total_weight weight_of obs.
Proof.
  unfold grade_weight. induction obs as [| o obs IH]; [reflexivity |].
  rewrite total_weight_cons. cbn [filter].
  destruct (quality o) eqn:E; cbn [grade_eqb]; rewrite total_weight_cons, E; lra.
Qed.

Lemma summarize_defined unit obs :
  obs <> [] ->
  exists r, summarize weight_of unit obs = Summary r
            /\ weighted_mean r = weighted_total weight_of obs / total_weight weight_of obs
            /\ quality_distribution r
               = map (fun g => (g, grade_weight weight_of g obs / total_weight weight_of obs))
                   all_grades.
Proof.
  intros Hobs. pose proof (total_weight_pos obs Hobs) as Hpos.
  destruct obs as [| o obs]; [congruence |]. unfold summarize.
  destruct (Qeq_bool (total_weight weight_of (o :: obs)) 0) eqn:E.
  - apply Qeq_bool_iff in E. lra.
  - eexists. split; [reflexivity |]. split; reflexivity.
Qed.

(** C3: for every non-empty sequence of observations, under weights in
    (0, 1], the calculator returns a summary whose quality distribution
    gives each grade the weight of its observations over the total weight,
    and the fractions sum to 1, hence to 1 within 1e-9. *)
Theorem quality_distribution_sums_to_one unit obs :
  obs <> [] ->
  exists r, summarize weight_of unit obs = Summary r
            /\ quality_distribution r
               = map (fun g => (g, grade_weight weight_of g obs / total_weight weight_of obs))
                   all_grades
            /\ distribution_sum (quality_distribution r) == 1
            /\ Qabs (distribution_sum (quality_distribution r) - 1) <= 1 # 1000000000.
Proof.
  intros Hobs. destruct (summarize_defined unit obs Hobs) as (r & Hr & _ & Hd).
  exists r. split; [exact Hr |]. split; [exact Hd |].
  pose proof (total_weight_pos obs Hobs) as Hpos.
  assert (Hsum : distribution_sum (quality_distribution r) == 1).
  { rewrite Hd. unfold distribution_sum, all_grades, Qsum. cbn [map snd fold_right].
    pose proof (grade_weights_total obs) as Ht.
    set (t := total_weight weight_of obs) in *.
    set (a := grade_weight weight_of excellent obs) in *.
    set (b := grade_weight weight_of good obs) in *.
    set (c := grade_weight weight_of questionable obs) in *.
    set (d := grade_weight weight_of poor obs) in *.
    transitivity ((a + b + c + d) / t); [field; lra |].
    rewrite Ht. field. lra. }
  split; [exact Hsum |]. rewrite Hsum. cbn. discriminate.
Qed.
End SummaryProperties.


Section ScenarioProperties.
Import Engine.
Open Scope Q_scope.

Lemma scenario_weights_valid : valid_weights (scenario_weights (5 # 10)).
Proof.
  split; [| repeat split].
  intros g. destruct g; split; cbv; congruence.
Qed.

(** C2, as amended: for every non-empty sequence of observations the
    weighted mean is the sum of value times weight over the sum of the
    weights; and for the three observations of the scenario, under the
    weights excellent 1.0, good 0.8 and poor 0.3, the summary has minimum
    10, maximum 14, mean 12 and weighted mean 242/21, which is 11.524 to
    three decimals. *)
Theorem weighted_mean_formula :
  (forall weight_of unit obs,
     valid_weights weight_of -> obs <> [] ->
     exists r, summarize weight_of unit obs = Summary r
               /\ weighted_mean r
                  == Qsum (map (fun o => value o * weight_of (quality o)) obs)
                     / Qsum (map (fun o => weight_of (quality o)) obs))
  /\ (forall q unit,
        exists r, summarize (scenario_weights q) unit scenario = Summary r
                  /\ min r == 10 /\ max r == 14 /\ mean r == 12
                  /\ weighted_mean r == 242 # 21
                  /\ Qabs (weighted_mean r - (11524 # 1000)) <= 1 # 1000).
Proof.
  split.
  - intros weight_of unit obs Hvalid Hobs.
    destruct (summarize_defined weight_of Hvalid unit obs Hobs) as (r & Hr & Hm & _).
    exists r. split; [exact Hr |]. rewrite Hm. reflexivity.
  - intros q unit. eexists. split; [reflexivity |].
    cbn [min max mean weighted_mean].
    repeat split; vm_compute; congruence.
Qed.

(** The scenario as the claim C2 states it does not hold: the weighted mean
    of the three observations is not within a hundredth of 11.238. *)
Lemma scenario_weighted_mean_is_not_11_238 :
  ~ (exists r, summarize (scenario_weights (5 # 10)) "celsius" scenario = Summary r
               /\ min r == 10 /\ max r == 14 /\ mean r == 12
               /\ Qabs (weighted_mean r - (11238 # 1000)) <= 1 # 100).
Proof.
  intros (r & Hr & _ & _ & _ & H).
  vm_compute in Hr. injection Hr as <-. vm_compute in H. now apply H.
Qed.

(** The scenario, with the weight 0.5 for questionable: its distribution
    sums to 1. *)
Lemma quality_distribution_sums_to_one_witness :
  exists r, summarize (scenario_weights (5 # 10)) "celsius" scenario = Summary r
            /\ quality_distribution r
               = map (fun g => (g, grade_weight (scenario_weights (5 # 10)) g scenario
                                   / total_weight (scenario_weights (5 # 10)) scenario))
                   all_grades
            /\ distribution_sum (quality_distribution r) == 1
            /\ Qabs (distribution_sum (quality_distribution r) - 1) <= 1 # 1000000000.
Proof.
  apply (quality_distribution_sums_to_one (scenario_weights (5 # 10))
           scenario_weights_valid "celsius" scenario).
  discriminate.
Defined.

End ScenarioProperties.

(** ** Reading the filters back from a URL *)

Section DecodeProperties.
Import JS Api Query Decode.

Lemma hex_value_digit (k : nat) :
  (k < 16)%nat -> hex_value (hex_digit k) = Some k.
Proof.
  intros Hk. do 16 (destruct k as [| k]; [reflexivity |]). lia.
Qed.

Lemma nat_of_ascii_bound (c : ascii) : (nat_of_ascii c < 256)%nat.
Proof. destruct c as [[|] [|] [|] [|] [|] [|] [|] [|]]; cbv; lia. Qed.

Lemma percent_decode_escape (plus : bool) (c : ascii) (rest : string) :
  percent_decode plus (percent_encode c ++ rest)
  = match percent_decode plus rest with
    | Some r => Some (String c r)
    | None => None
    end.
Proof.
  unfold percent_encode. cbn [append percent_decode].
  change (Ascii.eqb "%" "%") with true. cbv iota.
  pose proof (nat_of_ascii_bound c) as Hc.
  rewrite !hex_value_digit
    by (try apply Nat.mod_upper_bound; try apply Nat.Div0.div_lt_upper_bound; lia).
  destruct (percent_decode plus rest); [| reflexivity].
  rewrite <- Nat.div_mod_eq. now rewrite ascii_nat_embedding.
Qed.

Lemma percent_decode_plain (plus : bool) (c : ascii) (rest : string) :
  Ascii.eqb c "%" = false -> plus && Ascii.eqb c "+" = false ->
  percent_decode plus (String c rest)
  = match percent_decode plus rest with
    | Some r => Some (String c r)
    | None => None
    end.
Proof. intros Hp Hs. cbn [percent_decode]. now rewrite Hp, Hs. Qed.



Lemma form_kept_plain (c : ascii) :
  is_alnum c || one_of "*-._" c = true ->
  Ascii.eqb c "%" = false /\ Ascii.eqb c "+" = false.
Proof.
  intros Hc. split.
  - destruct (Ascii.eqb_spec c "%") as [-> |]; [discriminate | reflexivity].
  - destruct (Ascii.eqb_spec c "+") as [-> |]; [discriminate | reflexivity].
Qed.

(** Form decoding undoes the serialisation of [URLSearchParams]. *)
Lemma decode_form_encode (s : string) : form_decode (App.form_encode s) = Some s.
Proof.
  unfold form_decode. induction s as [| c s IH]; [reflexivity |].
  cbn [App.form_encode]. destruct (is_alnum c || one_of "*-._" c) eqn:Hc.
  - destruct (form_kept_plain c Hc) as [Hp Hs]. cbn [append].
    rewrite percent_decode_plain, IH; [reflexivity | assumption |].
    now rewrite Hs.
  - destruct (Ascii.eqb_spec c " ") as [-> | Hsp].
    + cbn [append percent_decode]. change (Ascii.eqb "+" "%") with false.
      cbv iota. rewrite IH. reflexivity.
    + now rewrite percent_decode_escape, IH.
Qed.

Lemma form_encode_clean (s : string) (sep : ascii) :
  In sep ["&"; "="]%char -> occurs sep (App.form_encode s) = false.
Proof.
  intros Hsep. induction s as [| c s IH]; [reflexivity |].
  cbn [App.form_encode]. rewrite occurs_app, IH, orb_false_r.
  destruct (is_alnum c || one_of "*-._" c) eqn:Hc.
  - unfold occurs. cbn [list_ascii_of_string existsb].
    destruct (Ascii.eqb_spec sep c) as [<- |]; [| reflexivity].
    now destruct Hsep as [<- | [<- | []]].
  - destruct (Ascii.eqb c " ").
    + now destruct Hsep as [<- | [<- | []]].
    + now apply percent_encode_clean.
Qed.

(** The parameters of a joined list of encoded pairs are the encoded
    pairs, for an encoding that produces no ampersand and no equals sign. *)
Lemma parameters_joined (enc : string -> string) (l : list (string * string)) :
  (forall s sep, In sep ["&"; "="]%char -> occurs sep (enc s) = false) ->
  parameters (String.concat "&" (map (fun kv => enc (fst kv) ++ "=" ++ enc (snd kv)) l))
  = map (fun kv => (enc (fst kv), enc (snd kv))) l.
Proof.
  intros Hclean. unfold parameters. destruct l as [| e l]; [reflexivity |].
  destruct (String.eqb_spec
              (String.concat "&" (map (fun kv => enc (fst kv) ++ "=" ++ enc (snd kv)) (e :: l)))
              "") as [H | _].
  - exfalso. revert H. apply concat_cons_nonempty.
    destruct (enc (fst e)); discriminate.
  - rewrite (split_concat "&"%char).
    + rewrite map_map. apply map_ext. intros kv.
      apply (cut_clean "="%char). apply Hclean. cbn; tauto.
    + discriminate.
    + apply Forall_forall. intros p Hp. apply in_map_iff in Hp as [kv [<- _]].
      rewrite !occurs_app, !Hclean by (cbn; tauto). reflexivity.
Qed.

Lemma decode_pairs_encoded (enc : string -> string) (dec : string -> option string)
    (l : list (string * string)) :
  (forall s, dec (enc s) = Some s) ->
  decode_pairs dec (map (fun kv => (enc (fst kv), enc (snd kv))) l) = Some l.
Proof.
  intros Hround. induction l as [| [k v] l IH]; [reflexivity |].
  cbn [map decode_pairs fst snd]. now rewrite !Hround, IH.
Qed.

Lemma query_object_active (f : Filters.FilterSet) :
  App.query_object f = active_filters f.
Proof.
  unfold App.query_object, active_filters, App.spread_if. cbn [filter snd].
  destruct (Filters.locationId f =? ""), (Filters.startDate f =? ""),
    (Filters.endDate f =? ""), (Filters.metric f =? ""),
    (Filters.qualityThreshold f =? ""); reflexivity.
Qed.

(** X1: the URL [fetchData] requests is the endpoint, a question mark, and
    a query that decodes to exactly the non-empty ones among location_id,
    start_date, end_date, metric and quality_threshold, in this order; the
    analysis type is never a parameter; without any filter the URL ends in
    the bare question mark. *)
Theorem request_url_carries_filters (f : Filters.FilterSet) :
  exists query,
    Payload.request_url f = App.endpoint f ++ "?" ++ query
    /\ decode_pairs form_decode (parameters query) = Some (active_filters f)
    /\ (forall k v, In (k, v) (active_filters f) ->
        v <> ""
        /\ In k ["location_id"; "start_date"; "end_date"; "metric"; "quality_threshold"])
    /\ (active_filters f = [] -> query = "").
Proof.
  exists (App.URLSearchParams (App.query_object f)).
  split; [reflexivity |]. rewrite query_object_active. split; [| split].
  - unfold App.URLSearchParams.
    rewrite (parameters_joined App.form_encode) by apply form_encode_clean.
    apply decode_pairs_encoded, decode_form_encode.
  - intros k v Hin. unfold active_filters in Hin. apply filter_In in Hin as [Hin Hv].
    cbn [snd] in Hv. split.
    + intros ->. discriminate.
    + cbn [In] in Hin.
      repeat (destruct Hin as [Hin | Hin];
              [injection Hin as <- _; cbn; tauto |]).
      contradiction.
  - intros ->. reflexivity.
Qed.

Context {rt : Runtime}.



(** X3: filters that are [undefined], a number, a boolean or an empty
    object give the bare URL of the resource, and [null] filters raise a
    TypeError before any request is made. *)
Theorem resource_url_without_entries (fetch : string -> res Api.response)
    (resource : string) (filters : JS.value) :
  (filters = VUndefined \/ filters = VObj [] \/ (exists b, filters = VBool b)
   \/ (exists x, filters = VNum x) ->
   resource_url resource filters = Ok (API_BASE_URL ++ resource)
   /\ get_resource fetch resource filters
      = (res <- fetch (API_BASE_URL ++ resource) ;;
         if negb (ok res) then message <- text res ;; Throw (Error message)
         else json res))
  /\ get_resource fetch resource VNull
     = Throw (TypeError "Cannot convert undefined or null to object").
Proof.
  split; [| reflexivity].
  intros H.
  assert (Hurl : resource_url resource filters = Ok (API_BASE_URL ++ resource)).
  { unfold resource_url, buildQueryString.
    destruct H as [-> | [-> | [[b ->] | [x ->]]]];
      cbn [is_undefined entries bind filter mapM String.concat];
      change ("" =? "") with true; cbv iota; now rewrite append_empty. }
  split; [exact Hurl |]. unfold get_resource. now rewrite Hurl.
Qed.

End DecodeProperties.




(** ** More on fetchData *)

Section FetchMore.
Import JS Filters App Payload Decode Dashboard.

Variable fetch : string -> res response.

(** What a call leaves does not depend on the results, message and loading
    flag it found. *)
Lemma result_state_settles (f : FilterSet) (fetched : res response) :
  exists err c t s, forall st, result_state f fetched st = settle err c t s st.
Proof.
  unfold result_state, failure.
  destruct fetched as [r | e]; [| eauto 6].
  destruct (ok r); [| eauto 6].
  destruct (json r) as [data | e]; [| eauto 6].
  destruct (no_data data) as [[|] | e]; [eauto 6 | | eauto 6].
  destruct (get data "data") as [d | e]; [| eauto 6].
  destruct (analysisType f =? "trends"); [eauto 6 |].
  destruct (analysisType f =? "weighted"); eauto 6.
Qed.

(** X4: [fetchData] never touches the filters nor the lists of locations
    and metrics; what it leaves in the three result states, the message and
    the loading flag does not depend on what they held before; and calling
    it again with the same answer of the server changes nothing. *)
Theorem fetchData_frame (f : FilterSet) (st : AppState) :
  let st' := after (fetchData fetch f) st in
  filters st' = filters st
  /\ locations st' = locations st
  /\ metrics st' = metrics st
  /\ (forall st2, filters st2 = filters st -> locations st2 = locations st ->
                  metrics st2 = metrics st ->
                  after (fetchData fetch f) st2 = st')
  /\ after (fetchData fetch f) st' = st'.
Proof.
  unfold after. cbv zeta. rewrite !fetchData_unfold. cbn [snd].
  destruct (result_state_settles f (fetch (request_url f))) as (err & c & t & s & H).
  rewrite !H. repeat split.
  intros st2 Hf Hl Hm. rewrite fetchData_unfold. cbn [snd]. rewrite H.
  unfold settle. now rewrite Hf, Hl, Hm.
Qed.

(** X5: the message after a failed call. A rejected [fetch] or an
    unreadable body leaves the message of the error, or "Error fetching
    data." when that is empty; a response that is not ok leaves "API error:"
    with its status and status text, and its body is never read. *)
Theorem fetchData_failure_message (f : FilterSet) (st : AppState) :
  let st' := after (fetchData fetch f) st in
  (forall e, fetch (request_url f) = Throw e ->
     error st' = VStr (if message e =? "" then "Error fetching data." else message e))
  /\ (forall r e, fetch (request_url f) = Ok r -> ok r = true -> json r = Throw e ->
        error st' = VStr (if message e =? "" then "Error fetching data." else message e))
  /\ (forall r, fetch (request_url f) = Ok r -> ok r = false ->
        error st'
        = VStr ("API error: " ++ decimal (status r) ++ " " ++ statusText r)
        /\ forall body,
             after (fetchData (fun _ => Ok {| ok := false; status := status r;
                                              statusText := statusText r;
                                              json := body |}) f) st = st').
Proof.
  unfold after. cbv zeta. rewrite fetchData_unfold. cbn [snd]. unfold result_state.
  split; [| split].
  - intros e ->. reflexivity.
  - intros r e -> -> ->. reflexivity.
  - intros r Hr Hok. rewrite Hr, Hok. split; [reflexivity |].
    intros body. rewrite fetchData_unfold. cbn [snd]. unfold result_state.
    reflexivity.
Qed.

(** X6: [no_data] never raises, and it answers false exactly for a truthy
    body with a substantial payload: a payload that is truthy and neither
    an empty array nor an empty object. A payload of 0, false or the empty
    string counts as no data; a number, true or a non-empty string as
    data. *)
Theorem no_data_characterised (data : JS.value) :
  no_data data = Ok (negb (truthy data && substantial (payload data))).
Proof.
  unfold no_data, payload.
  destruct (truthy data) eqn:Ht; [| reflexivity]. cbn [negb andb].
  destruct (get_defined data "data" Ht) as [d ->]. cbn [bind].
  destruct d as [| | [|] | x | s | [| x xs] | [| kv fs]]; try reflexivity.
  - unfold substantial. destruct (truthy (VNum x)); reflexivity.
  - unfold substantial. destruct (truthy (VStr s)) eqn:E; cbn [negb]; [| reflexivity].
    reflexivity.
Qed.

(** X7: an ok response with a substantial payload is stored in the result
    state of the requested analysis type, and the message is cleared. *)
Theorem fetchData_stores_payload (f : FilterSet) (st : AppState) (r : response)
    (data : JS.value) :
  fetch (request_url f) = Ok r ->
  ok r = true ->
  json r = Ok data ->
  truthy data = true ->
  substantial (payload data) = true ->
  let st' := after (fetchData fetch f) st in
  error st' = VNull
  /\ loading st' = false
  /\ (analysisType f = "trends" -> trendData st' = payload data)
  /\ (analysisType f = "weighted" -> summaryData st' = payload data)
  /\ (analysisType f <> "trends" -> analysisType f <> "weighted" ->
      climateData st' = payload data)
  /\ panel_of (after (handleApplyFilters fetch f) st)
     = panel_for (analysisType f) (payload data).
Proof.
  intros Hfetch Hok Hjson Ht Hs.
  assert (Hstate : forall st0, result_state f (fetch (request_url f)) st0
                   = if analysisType f =? "trends" then
                       settle VNull (VArr []) (payload data) VNull st0
                     else if analysisType f =? "weighted" then
                       settle VNull (VArr []) VNull (payload data) st0
                     else settle VNull (payload data) VNull VNull st0).
  { intros st0. unfold result_state.
    rewrite Hfetch, Hok, Hjson, no_data_characterised, Ht, Hs. cbn [andb negb].
    unfold payload. destruct (get_defined data "data" Ht) as [d ->]. reflexivity. }
  unfold after. cbv zeta. rewrite fetchData_unfold. cbn [snd]. rewrite Hstate.
  repeat split.
  - destruct (analysisType f =? "trends"), (analysisType f =? "weighted"); reflexivity.
  - destruct (analysisType f =? "trends"), (analysisType f =? "weighted"); reflexivity.
  - intros ->. reflexivity.
  - intros ->. reflexivity.
  - intros H1 H2. apply String.eqb_neq in H1, H2. now rewrite H1, H2.
  - unfold handleApplyFilters, bindM, setFilters. rewrite fetchData_unfold.
    cbn [snd]. rewrite Hstate. unfold panel_of, panel_for.
    destruct (analysisType f =? "trends") eqn:E1; cbn [settle filters analysisType].
    + cbn. now rewrite E1.
    + destruct (analysisType f =? "weighted") eqn:E2; cbn; now rewrite E1, E2.
Qed.

(** X8: [handleApplyFilters] stores the new filters and then behaves as
    [fetchData]; afterwards the panel on screen is the one of the new
    analysis type, it is not loading, and the result states of the two
    other panels are empty. *)
Theorem handleApplyFilters_panel (newFilters : FilterSet) (st : AppState) :
  let st' := after (handleApplyFilters fetch newFilters) st in
  filters st' = newFilters
  /\ trendData st' = trendData (after (fetchData fetch newFilters) st)
  /\ summaryData st' = summaryData (after (fetchData fetch newFilters) st)
  /\ climateData st' = climateData (after (fetchData fetch newFilters) st)
  /\ error st' = error (after (fetchData fetch newFilters) st)
  /\ ((panel_of st' = TrendPanel (trendData st') false
       /\ summaryData st' = VNull /\ climateData st' = VArr [])
      \/ (panel_of st' = SummaryPanel (summaryData st') false
          /\ trendData st' = VNull /\ climateData st' = VArr [])
      \/ (panel_of st' = ChartPanels (climateData st') false
          /\ trendData st' = VNull /\ summaryData st' = VNull)).
Proof.
  unfold after. cbv zeta.
  unfold handleApplyFilters, bindM, setFilters. rewrite !fetchData_unfold. cbn [snd].
  destruct (result_state_settles newFilters (fetch (request_url newFilters)))
    as (err & c & t & s & H).
  rewrite !H. cbn [settle filters trendData summaryData climateData error].
  repeat split.
  pose proof (H st) as Hst. clear H. revert Hst. unfold result_state, failure, panel_of.
  cbn [settle filters trendData summaryData climateData error loading].
  assert (Hempty : forall e' , settle e' (VArr []) VNull VNull st = settle err c t s st ->
            c = VArr [] /\ t = VNull /\ s = VNull).
  { unfold settle. intros e' [=]. auto. }
  destruct (analysisType newFilters =? "trends") eqn:E1;
    [| destruct (analysisType newFilters =? "weighted") eqn:E2].
  - intros Hst. left. split; [reflexivity |].
    destruct (fetch _) as [r | e]; [| now apply Hempty in Hst].
    destruct (ok r); [| now apply Hempty in Hst].
    destruct (json r) as [data | e]; [| now apply Hempty in Hst].
    destruct (no_data data) as [[|] | e]; try (now apply Hempty in Hst).
    destruct (get data "data") as [d | e]; [| now apply Hempty in Hst].
    unfold settle in Hst. injection Hst; intros; subst; split; reflexivity.
  - intros Hst. right; left. split; [reflexivity |].
    destruct (fetch _) as [r | e]; [| now apply Hempty in Hst].
    destruct (ok r); [| now apply Hempty in Hst].
    destruct (json r) as [data | e]; [| now apply Hempty in Hst].
    destruct (no_data data) as [[|] | e]; try (now apply Hempty in Hst).
    destruct (get data "data") as [d | e]; [| now apply Hempty in Hst].
    unfold settle in Hst. injection Hst; intros; subst; split; reflexivity.
  - intros Hst. right; right. split; [reflexivity |].
    destruct (fetch _) as [r | e]; [| now apply Hempty in Hst].
    destruct (ok r); [| now apply Hempty in Hst].
    destruct (json r) as [data | e]; [| now apply Hempty in Hst].
    destruct (no_data data) as [[|] | e]; try (now apply Hempty in Hst).
    destruct (get data "data") as [d | e]; [| now apply Hempty in Hst].
    unfold settle in Hst. injection Hst; intros; subst; split; reflexivity.
Qed.

End FetchMore.

(** The response with two observations, requested as raw climate data. *)
Lemma fetchData_stores_payload_witness :
  App.climateData
    (App.after (App.fetchData (fun _ => JS.Ok MoreSamples.climate_response) Filters.cleared)
       App.initial)
  = Payload.payload
      (JS.VObj [ ("data",
                  JS.VArr [ JS.VObj [ ("date", JS.VStr "2023-01-01");
                                      ("value", JS.VNum (JS.Fin 10));
                                      ("quality", JS.VStr "good") ];
                            JS.VObj [ ("date", JS.VStr "2023-02-01");
                                      ("value", JS.VNum (JS.Fin 12));
                                      ("quality", JS.VStr "excellent") ] ]) ]).
Proof.
  refine (proj1 (proj2 (proj2 (proj2 (proj2
            (fetchData_stores_payload (fun _ => JS.Ok MoreSamples.climate_response)
               Filters.cleared App.initial MoreSamples.climate_response _
               eq_refl eq_refl eq_refl eq_refl eq_refl))))) _ _); discriminate.
Defined.

(** ** More on TrendAnalysis *)

Section TrendMore.
Import JS React TrendAnalysis Shape Decode.

Lemma lower_ascii_idempotent (c : ascii) : lower_ascii (lower_ascii c) = lower_ascii c.
Proof. destruct c as [[|] [|] [|] [|] [|] [|] [|] [|]]; reflexivity. Qed.

Lemma toLowerCase_idempotent (s : string) : toLowerCase (toLowerCase s) = toLowerCase s.
Proof.
  induction s as [| c s IH]; [reflexivity |].
  cbn [toLowerCase]. now rewrite lower_ascii_idempotent, IH.
Qed.

Lemma toLowerCase_empty (s : string) : (toLowerCase s =? "") = (s =? "").
Proof. destruct s; reflexivity. Qed.

(** X9: [getTrendIcon] does not look at the case of the letters of the
    direction; it answers null or one of the three arrows; and for a value
    that is not a string (a number, an object, null, undefined) it answers
    null and raises nothing. *)
Theorem getTrendIcon_ignores_case (v : JS.value) :
  (forall s, getTrendIcon (VStr s) = getTrendIcon (VStr (toLowerCase s)))
  /\ In (getTrendIcon v) [VNull; VStr "↗️"; VStr "↘️"; VStr "➡️"]
  /\ ((forall s, v <> VStr s) -> getTrendIcon v = VNull)
  /\ (forall s, toLowerCase s <> "increasing" -> toLowerCase s <> "decreasing" ->
                toLowerCase s <> "stable" -> getTrendIcon (VStr s) = VNull).
Proof.
  split; [| split; [| split]].
  - intros s. unfold getTrendIcon. cbn [truthy typeof].
    now rewrite toLowerCase_idempotent, toLowerCase_empty.
  - unfold getTrendIcon.
    destruct (negb (truthy v) || negb (typeof v =? "string")); [cbn; tauto |].
    destruct v; try (cbn; tauto).
    destruct (toLowerCase s =? "increasing"); [cbn; tauto |].
    destruct (toLowerCase s =? "decreasing"); [cbn; tauto |].
    destruct (toLowerCase s =? "stable"); cbn; tauto.
  - intros Hv. unfold getTrendIcon.
    destruct (negb (truthy v) || negb (typeof v =? "string")); [reflexivity |].
    destruct v; try reflexivity. now elim (Hv s).
  - intros s H1 H2 H3. unfold getTrendIcon.
    destruct (negb (truthy (VStr s)) || negb (typeof (VStr s) =? "string"));
      [reflexivity |].
    apply String.eqb_neq in H1, H2, H3. now rewrite H1, H2, H3.
Qed.

Context {rt : Runtime}.

Lemma length_append (a b : string) :
  String.length (a ++ b) = (String.length a + String.length b)%nat.
Proof. induction a as [| c a IH]; [reflexivity | cbn; now rewrite IH]. Qed.

Lemma percent_suffix (a : string) : a ++ "%" <> "N/A".
Proof.
  destruct a as [| c1 [| c2 [| c3 a]]]; cbn; try discriminate.
  intros H. injection H as _ _ _ H. destruct a; discriminate.
Qed.

(** X10: which lines of a card show "N/A". The rate shows it exactly when
    the rate is null or the unit is missing or empty, the confidence exactly
    when it is null, and the direction for every falsy direction; a rate or
    a confidence that is absent ([undefined]) is formatted as a number
    instead. *)
Theorem not_available_exactly_when (direction rate unit confidence : JS.value) :
  (rate_value rate unit = Ok NA <-> rate = VNull \/ truthy unit = false)
  /\ (confidence_value confidence = Ok NA <-> confidence = VNull)
  /\ (truthy direction = false -> direction_value direction = NA)
  /\ (truthy direction = true -> direction_value direction = direction)
  /\ confidence_value VUndefined = Ok (VStr (toFixed (multiply NaN (Fin 100)) 1 ++ "%")).
Proof.
  split; [| split; [| split; [| split]]].
  - unfold rate_value, NA. split.
    + destruct (is_null rate) eqn:Hr.
      * destruct rate; try discriminate. now left.
      * destruct (truthy unit); [| now right]. cbn [negb andb].
        destruct (ToNumber rate) as [r | e]; [| discriminate]. cbn [bind].
        destruct (ToString unit) as [u | e]; [| discriminate]. cbn [bind].
        intros [= H].
        apply (f_equal String.length) in H. rewrite !length_append in H.
        cbn [String.length] in H.
        rewrite !length_append in H. cbn [String.length] in H. lia.
    + intros [-> | ->]; [reflexivity |]. now rewrite andb_false_r.
  - unfold confidence_value, NA. split.
    + destruct (is_null confidence) eqn:Hc.
      * destruct confidence; try discriminate. reflexivity.
      * cbn [negb]. destruct (ToNumber confidence) as [c | e]; [| discriminate].
        cbn [bind]. intros [= H]. now apply percent_suffix in H.
    + intros ->. reflexivity.
  - intros H. unfold direction_value. now rewrite H.
  - intros H. unfold direction_value. now rewrite H.
  - reflexivity.
Qed.

Lemma mapM_defined {A B} (f : A -> res B) (l : list A) (bs : list B) :
  mapM f l = Ok bs -> forall a, In a l -> exists b, f a = Ok b.
Proof.
  revert bs. induction l as [| x l IH]; intros bs H a Hin; [contradiction |].
  cbn [mapM] in H. destruct (f x) as [b |] eqn:Hx; [| discriminate].
  cbn [bind] in H. destruct (mapM f l) as [bs' |] eqn:Hl; [| discriminate].
  destruct Hin as [<- | Hin]; [eauto | apply (IH bs' eq_refl a Hin)].
Qed.

Lemma get_unreadable (v : JS.value) (k : string) :
  unreadable v -> exists e, get v k = Throw e.
Proof. intros [-> | ->]; eexists; reflexivity. Qed.

(** X11: a single metric that lacks its trend, its anomalies or its
    seasonality object (the key is missing, or null) makes the whole
    component raise: no card, no anomaly and no season of any other metric
    is rendered. *)
Theorem TrendAnalysis_needs_all_parts (es : list (string * JS.value)) (metric : string)
    (f : list (string * JS.value)) :
  In (metric, VObj f) es ->
  unreadable (lookup "trend" f) \/ unreadable (lookup "anomalies" f)
  \/ unreadable (lookup "seasonality" f) ->
  exists e, TrendAnalysis (VObj es) false = Throw e.
Proof.
  intros Hin Hbad. unfold TrendAnalysis. cbn [truthy negb entries bind].
  destruct (mapM TrendCard es) as [cards | e] eqn:Hc; [| eexists; reflexivity]. cbn [bind].
  destruct (mapM AnomalyBlock es) as [anomalies | e] eqn:Ha; [| eexists; reflexivity]. cbn [bind].
  destruct (mapM SeasonBlock es) as [seasons | e] eqn:Hs; [| eexists; reflexivity]. exfalso.
  destruct (mapM_defined _ _ _ Hc _ Hin) as [c Hcard].
  destruct (mapM_defined _ _ _ Ha _ Hin) as [a Hanomaly].
  destruct (mapM_defined _ _ _ Hs _ Hin) as [s Hseason].
  destruct Hbad as [H | [H | H]].
  - unfold TrendCard in Hcard. cbn [get bind] in Hcard.
    destruct (get_unreadable _ "direction" H) as [e He]. now rewrite He in Hcard.
  - unfold AnomalyBlock in Hanomaly. cbn [get bind] in Hanomaly.
    destruct (get_unreadable _ "length" H) as [e He]. now rewrite He in Hanomaly.
  - unfold SeasonBlock in Hseason. cbn [get bind] in Hseason.
    destruct (get_unreadable _ "detected" H) as [e He]. now rewrite He in Hseason.
Qed.

End TrendMore.

(** The sample payload whose second metric lacks its seasonality. *)
Lemma TrendAnalysis_needs_all_parts_witness :
  exists e,
    TrendAnalysis.TrendAnalysis (rt := Exact.runtime) (JS.VObj MoreSamples.incomplete_trends)
      false
    = JS.Throw e.
Proof.
  apply (@TrendAnalysis_needs_all_parts Exact.runtime MoreSamples.incomplete_trends "humidity"
           [ ("trend", JS.VObj [ ("direction", JS.VStr "stable");
                                 ("rate", JS.VNum (JS.Fin 0)); ("unit", JS.VStr "%");
                                 ("confidence", JS.VNum (JS.Fin 1)) ]);
             ("anomalies", JS.VArr []) ]).
  - right. left. reflexivity.
  - right. right. left. reflexivity.
Defined.

(** ** The Filters component *)

Section FiltersMore.
Import JS Filters FiltersForm Decode.

Variable fetch : string -> res Api.response.

Lemma store_lists_cases (locRes metRes : JS.value) (st : State) :
  (exists e st1, store_lists locRes metRes st = (Throw e, st1)
                  /\ localFilters st1 = localFilters st /\ loading st1 = loading st
                  /\ (unreadable locRes \/ unreadable metRes))
  \/ (store_lists locRes metRes st
      = (Ok tt, setMetrics (or_empty (Shape.field metRes "data"))
                  (setLocations (or_empty (Shape.field locRes "data")) st))
      /\ ~ unreadable locRes /\ ~ unreadable metRes).
Proof.
  unfold store_lists, Shape.field, unreadable.
  destruct (get locRes "data") as [l | e] eqn:Hl.
  - destruct (get metRes "data") as [m | e] eqn:Hm.
    + right. split; [reflexivity |].
      split; intros H; destruct H as [-> | ->]; discriminate.
    + left. exists e, (setLocations (or_empty l) st). repeat split.
      right. destruct metRes; try (cbn in Hm; discriminate); auto;
        unfold get in Hm; destruct ("data" =? "length"); try discriminate;
        destruct (as_index "data"); discriminate.
  - left. exists e, st. repeat split.
    left. destruct locRes; try (cbn in Hl; discriminate); auto;
      unfold get in Hl; destruct ("data" =? "length"); try discriminate;
      destruct (as_index "data"); discriminate.
Qed.

(** X12: after [fetchDropdowns] the form is no longer loading and its
    filters are untouched. Both lists come from the two responses, each the
    [data] of its body or the empty list when that is missing, only when
    both requests succeeded with a body that is not null; if either request
    failed, both lists are empty, also the one whose request succeeded. *)
Theorem fetchDropdowns_both_or_none (st : State) :
  let st' := fetchDropdowns fetch st in
  loading st' = false
  /\ localFilters st' = localFilters st
  /\ ((locations st' = VArr [] /\ metrics st' = VArr [])
      \/ (exists locRes metRes,
            getLocations fetch = Ok locRes /\ getMetrics fetch = Ok metRes
            /\ locations st' = or_empty (Shape.field locRes "data")
            /\ metrics st' = or_empty (Shape.field metRes "data")))
  /\ ((exists e, getLocations fetch = Throw e) \/ (exists e, getMetrics fetch = Throw e) ->
      locations st' = VArr [] /\ metrics st' = VArr [])
  /\ (forall locRes metRes,
        getLocations fetch = Ok locRes -> getMetrics fetch = Ok metRes ->
        ~ unreadable locRes -> ~ unreadable metRes ->
        locations st' = or_empty (Shape.field locRes "data")
        /\ metrics st' = or_empty (Shape.field metRes "data")).
Proof.
  cbv zeta. unfold fetchDropdowns, Promise_all.
  destruct (getLocations fetch) as [locRes | e1];
    destruct (getMetrics fetch) as [metRes | e2];
    try (split; [reflexivity | split; [reflexivity | split; [now left | split]]];
         [intros _; split; reflexivity | intros l m; discriminate]).
  destruct (store_lists_cases locRes metRes (setLoading true st))
    as [(e & st1 & -> & Hf & Hl & Hbad) | (-> & Hl & Hm)];
    (split; [reflexivity | split; [| split; [| split]]]).
  - exact Hf.
  - left. split; reflexivity.
  - intros _. split; reflexivity.
  - intros l m [= <-] [= <-] Hnl Hnm. tauto.
  - reflexivity.
  - right. exists locRes, metRes. repeat split.
  - intros [[e He] | [e He]]; discriminate.
  - intros l m [= <-] [= <-] _ _. split; reflexivity.
Qed.

(** X13: "Clear Filters" resets the local filters and makes the parent
    apply the default filters; with [App]'s callback this stores the
    defaults, asks for the raw climate data of no filter at all, at
    "/api/v1/climate?", and leaves the trend and summary states empty,
    whatever the form and the application held. Without a callback only the
    local filters change. *)
Theorem handleClear_requests_everything (appFetch : string -> res App.response)
    (st : State) (app : App.AppState) :
  let st' := fst (handleClear (Some (App.handleApplyFilters appFetch)) st) in
  let call := snd (handleClear (Some (App.handleApplyFilters appFetch)) st) in
  let app' := App.after call app in
  localFilters st' = cleared
  /\ locations st' = locations st /\ metrics st' = metrics st
  /\ App.filters app' = cleared
  /\ Payload.request_url cleared = "/api/v1/climate?"
  /\ app' = Payload.result_state cleared (appFetch "/api/v1/climate?")
              (App.after (App.setFilters cleared) app)
  /\ App.trendData app' = VNull /\ App.summaryData app' = VNull
  /\ fst (handleClear None st) = st'
  /\ App.after (snd (handleClear None st)) app = app.
Proof.
  cbn [handleClear fst snd]. cbv zeta.
  assert (Happ : App.after (App.handleApplyFilters appFetch cleared) app
                 = Payload.result_state cleared (appFetch "/api/v1/climate?")
                     (App.after (App.setFilters cleared) app)).
  { unfold App.after, App.handleApplyFilters, App.bindM. cbn [App.setFilters snd].
    rewrite fetchData_unfold. reflexivity. }
  rewrite Happ.
  destruct (result_state_settles cleared (appFetch "/api/v1/climate?"))
    as (err & c & t & s & H).
  repeat split; try (rewrite H; reflexivity).
  - unfold Payload.result_state, Payload.failure.
    destruct (appFetch _) as [r | e]; [| reflexivity].
    destruct (App.ok r); [| reflexivity].
    destruct (App.json r) as [data | e]; [| reflexivity].
    destruct (App.no_data data) as [[|] | e]; try reflexivity.
    destruct (get data "data"); reflexivity.
  - unfold Payload.result_state, Payload.failure.
    destruct (appFetch _) as [r | e]; [| reflexivity].
    destruct (App.ok r); [| reflexivity].
    destruct (App.json r) as [data | e]; [| reflexivity].
    destruct (App.no_data data) as [[|] | e]; try reflexivity.
    destruct (get data "data"); reflexivity.
Qed.

(** X14: the edits of the form stay local until they are applied. A change
    sets one field of the local filters and keeps the five others, the
    lists and the loading flag; "Apply" hands the parent exactly the edited
    filters, which the parent stores before it requests their URL. *)
Theorem handleApply_sends_edits (appFetch : string -> res App.response) (fd : field)
    (v : string) (st : State) (app : App.AppState) :
  let st' := handleChange fd v st in
  let app' := App.after (handleApply (Some (App.handleApplyFilters appFetch)) st') app in
  locations st' = locations st /\ metrics st' = metrics st /\ loading st' = loading st
  /\ (forall fd', field_value (localFilters st') fd'
                  = if field_eqb fd fd' then v else field_value (localFilters st) fd')
  /\ App.filters app' = localFilters st'
  /\ app' = Payload.result_state (localFilters st')
              (appFetch (Payload.request_url (localFilters st')))
              (App.after (App.setFilters (localFilters st')) app)
  /\ App.after (handleApply None st') app = app.
Proof.
  cbv zeta. unfold handleChange, handleApply.
  cbn [setLocalFilters localFilters locations metrics loading].
  assert (Happ : forall f, App.after (App.handleApplyFilters appFetch f) app
                 = Payload.result_state f (appFetch (Payload.request_url f))
                     (App.after (App.setFilters f) app)).
  { intros f. unfold App.after, App.handleApplyFilters, App.bindM.
    cbn [App.setFilters snd]. rewrite fetchData_unfold. reflexivity. }
  rewrite Happ.
  destruct (result_state_settles (with_field (localFilters st) fd v)
              (appFetch (Payload.request_url (with_field (localFilters st) fd v))))
    as (err & c & t & s & H).
  repeat split; try (rewrite H; reflexivity).
  intros fd'. destruct fd, fd'; reflexivity.
Qed.

End FiltersMore.

(** ** More on SummaryTable *)

Section SummaryTableMore.
Import JS React SummaryTable SummaryShape Decode.
Context {rt : Runtime}.

Lemma filterM_filter {A} (f : A -> res bool) (g : A -> bool) (l : list A) :
  Forall (fun a => f a = Ok (g a)) l -> filterM f l = Ok (filter g l).
Proof.
  induction 1 as [| a l Ha _ IH]; [reflexivity |].
  cbn [filterM filter]. rewrite Ha. cbn [bind]. rewrite IH. reflexivity.
Qed.

Lemma filterM_defined {A} (f : A -> res bool) (l kept : list A) :
  filterM f l = Ok kept -> forall a, In a l -> exists b, f a = Ok b.
Proof.
  revert kept. induction l as [| x l IH]; intros kept H a Hin; [contradiction |].
  cbn [filterM] in H. destruct (f x) as [b |] eqn:Hx; [| discriminate].
  cbn [bind] in H. destruct (filterM f l) as [rest |] eqn:Hl; [| discriminate].
  destruct Hin as [<- | Hin]; [eauto | apply (IH rest eq_refl a Hin)].
Qed.

Lemma round2_statistic (v : JS.value) :
  statistic v = true -> exists s, round2 v = Ok s.
Proof. destruct v; try discriminate; intros _; eexists; reflexivity. Qed.

Lemma quality_badges (d : list (string * JS.value)) :
  forallb (fun e => match snd e with VNum _ => true | _ => false end) d = true ->
  exists bs, mapM quality_badge d = Ok bs.
Proof.
  induction d as [| [q v] d IH]; [eexists; reflexivity |].
  cbn [forallb snd]. intros H. apply andb_prop in H as [Hv Hd].
  destruct (IH Hd) as [bs Hbs]. destruct v; try discriminate.
  cbn [mapM]. unfold quality_badge at 1. cbn [snd ToNumber bind]. rewrite Hbs.
  eexists; reflexivity.
Qed.

Lemma row_shape (e : string * JS.value) (idx : nat) :
  stats_shape (snd e) = true ->
  exists r, row e idx = Ok r /\ row_metric r = Some (fst e).
Proof.
  destruct e as [metric stats]. cbn [fst snd]. unfold stats_shape.
  destruct stats as [| | | | | | f]; try discriminate.
  intros H. apply andb_prop in H as [H Hqd]. apply andb_prop in H as [H Hunit].
  apply andb_prop in H as [H Hw]. apply andb_prop in H as [H Havg].
  apply andb_prop in H as [Hmin Hmax].
  unfold row. cbn [get bind].
  destruct (round2_statistic _ Hmin) as [smin ->].
  destruct (round2_statistic _ Hmax) as [smax ->].
  destruct (round2_statistic _ Havg) as [savg ->].
  destruct (round2_statistic _ Hw) as [sw ->]. cbn [bind].
  destruct (lookup "unit" f) as [| | | | u | |]; try discriminate; cbn [child bind];
    (destruct (lookup "quality_distribution" f) as [| | | | | | d]; try discriminate;
     [eexists; split; reflexivity | eexists; split; reflexivity |]);
    cbn [truthy entries bind];
    (destruct (quality_badges d Hqd) as [bs ->]; eexists; split; reflexivity).
Qed.

Lemma lookup_fraction (g : string) (d : list (string * JS.value)) :
  forallb (fun e => match snd e with VNum _ => true | _ => false end) d = true ->
  lookup g d = VUndefined \/ exists x, lookup g d = VNum x.
Proof.
  induction d as [| [k v] d IH]; [now left |].
  cbn [forallb snd lookup]. intros H. apply andb_prop in H as [Hv Hd].
  destruct (g =? k); [| now apply IH].
  destruct v; try discriminate. right. eauto.
Qed.

Lemma chart_point_shape (g : string) (e : string * JS.value) :
  stats_shape (snd e) = true -> exists p, chart_point g e = Ok p.
Proof.
  destruct e as [metric stats]. cbn [snd]. unfold stats_shape.
  destruct stats as [| | | | | | f]; try discriminate.
  intros H. apply andb_prop in H as [_ Hqd].
  unfold chart_point. cbn [snd get bind].
  destruct (lookup "quality_distribution" f) as [| | | | | | d]; try discriminate;
    try (eexists; reflexivity).
  cbn [get bind].
  destruct (lookup_fraction g d Hqd) as [-> | [x ->]]; eexists; reflexivity.
Qed.

Lemma series_shape (label color g : string) (ms : list (string * JS.value)) :
  Forall (fun e => stats_shape (snd e) = true) ms ->
  exists points,
    series label color g ms
    = Ok {| ds_label := label; backgroundColor := color; ds_data := points |}
    /\ List.length points = List.length ms.
Proof.
  intros Hms. unfold series.
  destruct (mapM_Forall2 (chart_point g) (fun _ _ => True) ms) as [points [-> Hlen]].
  { revert Hms. apply Forall_impl. intros e He.
    destruct (chart_point_shape g e He) as [p Hp]. eauto. }
  exists points. split; [reflexivity |].
  clear Hms. induction Hlen; cbn; congruence.
Qed.

(** X15: for summary data with at least one metric, each with statistics of
    the summary shape, [SummaryTable] returns the table with one row per
    metric, in the order of the payload and headed by the metric's name,
    followed by the chart exactly when some metric has a quality
    distribution; the chart then plots those metrics, with the four series
    Excellent, Good, Questionable and Poor, one point per plotted metric. *)
Theorem SummaryTable_rows_and_chart (es : list (string * JS.value)) :
  es <> [] ->
  Forall (fun e => stats_shape (snd e) = true) es ->
  exists rows chart,
    SummaryTable (VObj es) false = Ok (table rows chart)
    /\ map row_metric rows = map (fun e => Some (fst e)) es
    /\ (filter has_distribution es = [] -> chart = Nothing)
    /\ (filter has_distribution es <> [] ->
        exists datasets,
          chart = chart_block (map fst (filter has_distribution es)) datasets
          /\ map ds_label datasets = series_labels
          /\ Forall (fun ds => List.length (ds_data ds)
                               = List.length (filter has_distribution es)) datasets).
Proof.
  intros Hne Hshape. unfold SummaryTable. cbn [truthy negb keys entries bind].
  rewrite length_map.
  destruct es as [| e0 es0] eqn:Ees; [congruence |]. rewrite <- Ees in *.
  replace (List.length es =? 0)%nat with false by (rewrite Ees; reflexivity).
  rewrite (filterM_filter _ has_distribution).
  2:{ revert Hshape. apply Forall_impl. intros [m s] Hs. cbn [snd] in *.
      unfold has_distribution, Shape.field. cbn [snd].
      destruct s; try discriminate. reflexivity. }
  cbn [bind].
  destruct (mapMi_Forall2 row (fun e r => row_metric r = Some (fst e)) es) with (i := 0%nat)
    as [rows [-> Hrows]].
  { revert Hshape. apply Forall_impl. intros e He i. apply row_shape, He. }
  cbn [bind].
  assert (Hmetrics : map row_metric rows = map (fun e => Some (fst e)) es).
  { clear -Hrows. induction Hrows; cbn; congruence. }
  assert (Hplotted : Forall (fun e => stats_shape (snd e) = true)
                       (filter has_distribution es)).
  { apply Forall_forall. intros e He. apply filter_In in He as [He _].
    rewrite Forall_forall in Hshape. now apply Hshape. }
  destruct (filter has_distribution es) as [| p ps] eqn:Ef.
  - cbn [List.length Nat.ltb Nat.leb bind]. exists rows, Nothing.
    split; [reflexivity |]. split; [exact Hmetrics |]. split; [reflexivity | congruence].
  - rewrite <- Ef in *.
    replace (0 <? List.length (filter has_distribution es))%nat with true
      by (rewrite Ef; reflexivity).
    destruct (series_shape "Excellent" "#22c55e" "excellent" _ Hplotted) as (p1 & -> & L1).
    destruct (series_shape "Good" "#3b82f6" "good" _ Hplotted) as (p2 & -> & L2).
    destruct (series_shape "Questionable" "#facc15" "questionable" _ Hplotted)
      as (p3 & -> & L3).
    destruct (series_shape "Poor" "#ef4444" "poor" _ Hplotted) as (p4 & -> & L4).
    cbn [bind]. eexists rows, _. split; [reflexivity |]. split; [exact Hmetrics |].
    split; [intros H; rewrite Ef in H; discriminate |]. intros _.
    eexists. split; [reflexivity |]. split; [reflexivity |].
    repeat constructor; assumption.
Qed.

(** X16: statistics that are null or missing for a single metric make the
    whole summary table raise, whatever the other metrics hold. *)
Theorem SummaryTable_needs_statistics (es : list (string * JS.value)) (metric : string)
    (stats : JS.value) :
  In (metric, stats) es ->
  unreadable stats ->
  exists e, SummaryTable (VObj es) false = Throw e.
Proof.
  intros Hin Hbad. unfold SummaryTable. cbn [truthy negb keys entries bind].
  rewrite length_map.
  destruct es as [| e0 es0] eqn:Ees; [contradiction |]. rewrite <- Ees in *.
  replace (List.length es =? 0)%nat with false by (rewrite Ees; reflexivity).
  destruct (filterM _ es) as [kept | e] eqn:Hf; [| eexists; reflexivity].
  exfalso. destruct (filterM_defined _ _ _ Hf _ Hin) as [b Hb]. cbn [snd] in Hb.
  destruct Hbad as [-> | ->]; discriminate.
Qed.

End SummaryTableMore.

Lemma sample_summary_shape :
  Forall (fun e => SummaryShape.stats_shape (snd e) = true) MoreSamples.summary_entries.
Proof. repeat constructor. Qed.

(** The sample summary: two rows, and a chart of the one metric that has a
    distribution. *)
Lemma SummaryTable_rows_and_chart_witness :
  exists rows chart,
    SummaryTable.SummaryTable (rt := Exact.runtime) (JS.VObj MoreSamples.summary_entries) false
    = JS.Ok (SummaryShape.table rows chart)
    /\ map SummaryShape.row_metric rows = [Some "temperature"; Some "humidity"].
Proof.
  destruct (@SummaryTable_rows_and_chart Exact.runtime MoreSamples.summary_entries)
    as (rows & chart & H & Hrows & _).
  - discriminate.
  - exact sample_summary_shape.
  - exists rows, chart. split; [exact H | exact Hrows].
Defined.

(** The sample summary with a metric whose statistics are null. *)
Lemma SummaryTable_needs_statistics_witness :
  exists e,
    SummaryTable.SummaryTable (rt := Exact.runtime) (JS.VObj MoreSamples.broken_summary) false
    = JS.Throw e.
Proof.
  apply (@SummaryTable_needs_statistics Exact.runtime MoreSamples.broken_summary "pressure"
           JS.VNull).
  - right. right. left. reflexivity.
  - right. reflexivity.
Defined.
